(** * t-bears: the JSON-RPC front end of the local development node

    A shallow embedding of [tbears/server/jsonrpc_server.py]: the values
    that travel through the dispatcher, the integer-to-hex rewriting of
    results, the bounded transaction-result cache [TxResultMapper], the
    block-height counter and the handlers [icx_sendTransaction] and
    [icx_getTransactionResult], followed by the properties the
    specification states about them. *)

From Stdlib Require Import ZArith String Ascii List Bool Lia.
From stdpp Require Import base option list gmap strings.

Open Scope Z_scope.
Open Scope string_scope.
Open Scope list_scope.

(** ** Python values

    The objects handled by the dispatcher are what [json.loads] builds
    and what the execution backend answers: [None], booleans, integers,
    floats, strings, lists and string-keyed dicts.  A float is kept by
    its IEEE-754 binary64 bit pattern; a dict is the list of its items in
    insertion order. *)

#[local] Unset Elimination Schemes.
Inductive json : Type :=
| JNull
| JBool (b : bool)
| JInt (n : Z)
| JFloat (bits : Z)
| JStr (s : string)
| JList (l : list json)
| JDict (d : list (string * json)).
#[local] Set Elimination Schemes.

(** ** [hex]: Python's built-in on integers

    [hex(255) = '0xff'], [hex(0) = '0x0'], [hex(-255) = '-0xff']. *)

Definition hex_digit (d : Z) : ascii :=
  match d with
  | 0 => "0" | 1 => "1" | 2 => "2" | 3 => "3" | 4 => "4" | 5 => "5"
  | 6 => "6" | 7 => "7" | 8 => "8" | 9 => "9" | 10 => "a" | 11 => "b"
  | 12 => "c" | 13 => "d" | 14 => "e" | _ => "f"
  end%char.

(** Digits of [n >= 0], most significant first, in front of [acc]. *)
Fixpoint hex_digits (fuel : nat) (n : Z) (acc : string) : string :=
  let acc' := String (hex_digit (n mod 16)) acc in
  match fuel with
  | O => acc'
  | S fuel' => if Z.eqb (n / 16) 0 then acc' else hex_digits fuel' (n / 16) acc'
  end.

Definition hex_magnitude (n : Z) : string :=
  hex_digits (Z.to_nat (Z.log2 n)) n "".

Definition hex (n : Z) : string :=
  if Z.ltb n 0 then "-0x" +:+ hex_magnitude (- n) else "0x" +:+ hex_magnitude n.

(** The number a string of lowercase hex digits denotes, read after the
    digits that already gave [acc]. *)
Definition hex_digit_value (c : ascii) : Z :=
  let n := Z.of_nat (nat_of_ascii c) in
  if Z.leb 97 n then n - 87 else n - 48.

Fixpoint hex_value (digits : string) (acc : Z) : Z :=
  match digits with
  | EmptyString => acc
  | String c rest => hex_value rest (16 * acc + hex_digit_value c)
  end.

Definition is_lower_hex (c : ascii) : bool :=
  let n := nat_of_ascii c in
  (Nat.leb 48 n && Nat.leb n 57) || (Nat.leb 97 n && Nat.leb n 102).

Fixpoint all_lower_hex (digits : string) : bool :=
  match digits with
  | EmptyString => true
  | String c rest => is_lower_hex c && all_lower_hex rest
  end.

(** ** [integers_to_hex]

    The function looks at the container it is given and rewrites the
    container's direct members: a dict or list member is handed to the
    recursive call, an integer member becomes [hex(v)], anything else is
    kept.  [isinstance(v, int)] holds of booleans too ([bool] is a
    subclass of [int], [True] is 1 and [False] is 0).  A value that is
    neither a dict nor a list is returned as it is. *)
Fixpoint integers_to_hex (res : json) : json :=
  match res with
  | JDict d =>
      JDict (map (fun kv =>
                    (fst kv,
                     match snd kv with
                     | JDict _ => integers_to_hex (snd kv)
                     | JList _ => integers_to_hex (snd kv)
                     | JInt n => JStr (hex n)
                     | JBool b => JStr (hex (Z.b2z b))
                     | _ => snd kv
                     end)) d)
  | JList l =>
      JList (map (fun v =>
                    match v with
                    | JDict _ => integers_to_hex v
                    | JList _ => integers_to_hex v
                    | JInt n => JStr (hex n)
                    | JBool b => JStr (hex (Z.b2z b))
                    | _ => v
                    end) l)
  | _ => res
  end.

(** The rewriting as the specification words it: every integer leaf, at
    any depth below lists and dicts, becomes its hex string, and nothing
    else changes.  An integer is what [isinstance(v, int)] accepts. *)
Fixpoint deep_hex (v : json) : json :=
  match v with
  | JInt n => JStr (hex n)
  | JBool b => JStr (hex (Z.b2z b))
  | JList l => JList (map deep_hex l)
  | JDict d => JDict (map (fun kv => (fst kv, deep_hex (snd kv))) d)
  | _ => v
  end.

(** No integer is left at any depth. *)
Fixpoint integer_free (v : json) : bool :=
  match v with
  | JInt _ | JBool _ => false
  | JList l => forallb integer_free l
  | JDict d => forallb (fun kv => integer_free (snd kv)) d
  | _ => true
  end.

(** ** Exceptions and outcomes

    A call either returns or raises.  [GenericJsonRpcServerError] is the
    module's own exception class; the others are the built-in exceptions
    the modelled statements can raise. *)

Inductive exn : Type :=
| GenericJsonRpcServerError (code : json) (message : json) (http_status : Z)
| KeyError
| IndexError
| TypeError
| AttributeError
| OverflowError
| UnicodeDecodeError.

Inductive outcome (A : Type) : Type :=
| Return (a : A)
| Raise (e : exn).
Arguments Return {A} a.
Arguments Raise {A} e.

(** [jsonrpcserver.status.HTTP_BAD_REQUEST]. *)
Definition HTTP_BAD_REQUEST : Z := 400.

(** ** Operations of the Python runtime used by the module *)

(** [d.get(key)] on the items of a string-keyed dict. *)
Fixpoint dict_get (d : list (string * json)) (key : string) : option json :=
  match d with
  | [] => None
  | (k, v) :: rest => if String.eqb k key then Some v else dict_get rest key
  end.

(** [d[key] = value]: an existing key keeps its place, a new one is
    appended. *)
Fixpoint dict_set (d : list (string * json)) (key : string) (value : json)
  : list (string * json) :=
  match d with
  | [] => [(key, value)]
  | (k, v) :: rest =>
      if String.eqb k key then (k, value) :: rest
      else (k, v) :: dict_set rest key value
  end.

(** [v[key]] with a string [key]: [KeyError] on a dict without the key,
    [TypeError] on anything that is not a dict. *)
Definition getitem (v : json) (key : string) : outcome json :=
  match v with
  | JDict d =>
      match dict_get d key with
      | Some x => Return x
      | None => Raise KeyError
      end
  | _ => Raise TypeError
  end.

(** [l[0]]. *)
Definition first_item (l : list json) : outcome json :=
  match l with
  | x :: _ => Return x
  | [] => Raise IndexError
  end.

(** The integer a binary64 bit pattern denotes, when it denotes one:
    sign bit 63, exponent bits 62..52, fraction bits 51..0. *)
Definition float_integer (bits : Z) : option Z :=
  let sign := if Z.testbit bits 63 then -1 else 1 in
  let e := Z.land (Z.shiftr bits 52) 2047 in
  let f := Z.land bits (2 ^ 52 - 1) in
  if Z.eqb e 2047 then None
  else if Z.eqb e 0 then (if Z.eqb f 0 then Some 0 else None)
  else
    let m := 2 ^ 52 + f in
    if Z.leb 1075 e then Some (sign * Z.shiftl m (e - 1075))
    else if Z.eqb (m mod 2 ^ (1075 - e)) 0
         then Some (sign * Z.shiftr m (1075 - e))
         else None.

(** The integer a value compares equal to, if any: [1 == True == 1.0]. *)
Definition integer_value (v : json) : option Z :=
  match v with
  | JInt n => Some n
  | JBool b => Some (Z.b2z b)
  | JFloat bits => float_integer bits
  | _ => None
  end.

(** [v == n] for an integer literal [n]. *)
Definition py_eq_int (v : json) (n : Z) : bool :=
  match integer_value v with
  | Some m => Z.eqb m n
  | None => false
  end.

(** Unary minus: defined on numbers, [TypeError] elsewhere. *)
Definition py_neg (v : json) : outcome json :=
  match v with
  | JInt n => Return (JInt (- n))
  | JBool b => Return (JInt (- Z.b2z b))
  | JFloat bits => Return (JFloat (Z.lxor bits (2 ^ 63)))
  | _ => Raise TypeError
  end.

(** [isinstance(v, (dict, list, int))]. *)
Definition is_dict_list_int (v : json) : bool :=
  match v with
  | JDict _ | JList _ | JInt _ | JBool _ => true
  | _ => false
  end.

(** [n.to_bytes(8, 'big')]: [OverflowError] for a negative [n] and for
    one that needs more than eight bytes. *)
Definition byte_at (n : Z) (i : Z) : ascii :=
  ascii_of_N (Z.to_N (Z.land (Z.shiftr n (8 * i)) 255)).

Definition to_bytes_8_big (n : Z) : outcome string :=
  if Z.ltb n 0 then Raise OverflowError
  else if Z.leb (2 ^ 64) n then Raise OverflowError
  else Return (String (byte_at n 7) (String (byte_at n 6) (String (byte_at n 5)
              (String (byte_at n 4) (String (byte_at n 3) (String (byte_at n 2)
              (String (byte_at n 1) (String (byte_at n 0) EmptyString)))))))).

(** ** Dict keys

    Python files an object in a dict under its hash and equality class:
    [None], a string, or a number, where [True], [1] and [1.0] are one
    key; lists and dicts are unhashable.  A float that denotes no integer
    is filed under its bit pattern. *)

Inductive pykey : Type :=
| KNone
| KNum (n : Z)
| KFloat (bits : Z)
| KStr (s : string).

Definition pykey_encode (k : pykey) : unit + Z + Z + string :=
  match k with
  | KNone => inl (inl (inl tt))
  | KNum n => inl (inl (inr n))
  | KFloat b => inl (inr b)
  | KStr s => inr s
  end.

Definition pykey_decode (x : unit + Z + Z + string) : pykey :=
  match x with
  | inl (inl (inl _)) => KNone
  | inl (inl (inr n)) => KNum n
  | inl (inr b) => KFloat b
  | inr s => KStr s
  end.

#[global] Instance pykey_eq_dec : EqDecision pykey.
Proof. solve_decision. Defined.

#[global] Instance pykey_countable : Countable pykey :=
  inj_countable' pykey_encode pykey_decode
    (fun k => match k with KNone | KNum _ | KFloat _ | KStr _ => eq_refl end).

Definition py_hash (v : json) : option pykey :=
  match v with
  | JNull => Some KNone
  | JBool b => Some (KNum (Z.b2z b))
  | JInt n => Some (KNum n)
  | JFloat bits =>
      match float_integer bits with
      | Some n => Some (KNum n)
      | None => Some (KFloat bits)
      end
  | JStr s => Some (KStr s)
  | JList _ | JDict _ => None
  end.

(** ** The parse-error envelope

    [PARSE_ERROR_RESPONSE] is a string constant of the module; it is
    written here character for character. *)

Definition quote : ascii := "034"%char.

Definition quoted (s : string) : string := String quote (s +:+ String quote "").

Definition PARSE_ERROR_RESPONSE : string :=
  "{" +:+ quoted "jsonrpc" +:+ ":" +:+ quoted "2.0" +:+ ", "
  +:+ quoted "error" +:+ ":{" +:+ quoted "code" +:+ ":-32700, "
  +:+ quoted "message" +:+ ": " +:+ quoted "Parse error" +:+ "}, "
  +:+ quoted "id" +:+ ": " +:+ quoted "null" +:+ "}".

(** ** A reader for JSON text

    Objects, arrays, strings without escapes, integers and the three
    literals, with any white space between them: what is needed to read
    the constant above and the request bodies of the examples. *)

Inductive token : Type :=
| TLBrace | TRBrace | TLBracket | TRBracket | TColon | TComma
| TString (s : string)
| TNumber (n : Z)
| TWord (s : string).

Inductive lex_mode : Type :=
| Between
| InString (seen : string)
| InNumber (negative : bool) (value : option Z)
| InWord (seen : string).

Definition is_space (c : ascii) : bool :=
  let n := nat_of_ascii c in
  Nat.eqb n 32 || Nat.eqb n 9 || Nat.eqb n 10 || Nat.eqb n 13.

Definition digit_value (c : ascii) : option Z :=
  let n := Z.of_nat (nat_of_ascii c) in
  if Z.leb 48 n && Z.leb n 57 then Some (n - 48) else None.

Definition is_letter (c : ascii) : bool :=
  let n := nat_of_ascii c in
  Nat.leb 97 n && Nat.leb n 122.

(** The token a character yields, and the mode it leaves the lexer in,
    when it is met between two tokens. *)
Definition lex_between (c : ascii) : option (list token * lex_mode) :=
  if is_space c then Some ([], Between)
  else if Ascii.eqb c "{" then Some ([TLBrace], Between)
  else if Ascii.eqb c "}" then Some ([TRBrace], Between)
  else if Ascii.eqb c "[" then Some ([TLBracket], Between)
  else if Ascii.eqb c "]" then Some ([TRBracket], Between)
  else if Ascii.eqb c ":" then Some ([TColon], Between)
  else if Ascii.eqb c "," then Some ([TComma], Between)
  else if Ascii.eqb c quote then Some ([], InString "")
  else if Ascii.eqb c "-" then Some ([], InNumber true None)
  else if is_letter c then Some ([], InWord (String c ""))
  else match digit_value c with
       | Some d => Some ([], InNumber false (Some d))
       | None => None
       end.

Definition number_token (negative : bool) (value : option Z) : option token :=
  match value with
  | Some n => Some (TNumber (if negative then - n else n))
  | None => None
  end.

Fixpoint lex (mode : lex_mode) (text : string) : option (list token) :=
  match text with
  | EmptyString =>
      match mode with
      | Between => Some []
      | InString _ => None
      | InNumber negative value => t ← number_token negative value; Some [t]
      | InWord seen => Some [TWord seen]
      end
  | String c rest =>
      match mode with
      | Between =>
          '(ts, mode') ← lex_between c; more ← lex mode' rest; Some (ts ++ more)
      | InString seen =>
          if Ascii.eqb c quote then more ← lex Between rest; Some (TString seen :: more)
          else if Ascii.eqb c "\" then None
          else lex (InString (seen +:+ String c "")) rest
      | InNumber negative value =>
          match digit_value c with
          | Some d => lex (InNumber negative (Some (10 * default 0 value + d))) rest
          | None =>
              t ← number_token negative value;
              '(ts, mode') ← lex_between c;
              more ← lex mode' rest;
              Some (t :: ts ++ more)
          end
      | InWord seen =>
          if is_letter c then lex (InWord (seen +:+ String c "")) rest
          else '(ts, mode') ← lex_between c;
               more ← lex mode' rest;
               Some (TWord seen :: ts ++ more)
      end
  end.

(** [parse_value] reads one value; [parse_elements] the rest of an array
    after its opening bracket, [parse_members] the rest of an object
    after its opening brace, with the members read so far. *)
Fixpoint parse_value (fuel : nat) (ts : list token) : option (json * list token) :=
  match fuel with
  | O => None
  | S fuel' =>
      match ts with
      | TString s :: rest => Some (JStr s, rest)
      | TNumber n :: rest => Some (JInt n, rest)
      | TWord w :: rest =>
          if String.eqb w "null" then Some (JNull, rest)
          else if String.eqb w "true" then Some (JBool true, rest)
          else if String.eqb w "false" then Some (JBool false, rest)
          else None
      | TLBracket :: TRBracket :: rest => Some (JList [], rest)
      | TLBracket :: rest =>
          '(l, rest') ← parse_elements fuel' rest; Some (JList l, rest')
      | TLBrace :: TRBrace :: rest => Some (JDict [], rest)
      | TLBrace :: rest =>
          '(d, rest') ← parse_members fuel' [] rest; Some (JDict d, rest')
      | _ => None
      end
  end
with parse_elements (fuel : nat) (ts : list token) : option (list json * list token) :=
  match fuel with
  | O => None
  | S fuel' =>
      match parse_value fuel' ts with
      | Some (v, TComma :: rest) =>
          '(l, rest') ← parse_elements fuel' rest; Some (v :: l, rest')
      | Some (v, TRBracket :: rest) => Some ([v], rest)
      | _ => None
      end
  end
with parse_members (fuel : nat) (seen : list (string * json)) (ts : list token)
  : option (list (string * json) * list token) :=
  match fuel with
  | O => None
  | S fuel' =>
      match ts with
      | TString k :: TColon :: rest =>
          match parse_value fuel' rest with
          | Some (v, TComma :: rest') => parse_members fuel' (dict_set seen k v) rest'
          | Some (v, TRBrace :: rest') => Some (dict_set seen k v, rest')
          | _ => None
          end
      | _ => None
      end
  end.

Definition json_read (text : string) : option json :=
  ts ← lex Between text;
  match parse_value (2 * length ts + 2) ts with
  | Some (v, []) => Some v
  | _ => None
  end.

(** ** The node

    What the module takes from elsewhere is kept abstract: the dict slot
    Python assigns to a key object ([hash_key], [None] for an unhashable
    object), iconservice's [JsonRpcMessageValidator.validate],
    [json.dumps] followed by [encode], [hashlib.sha3_256(..).hexdigest()],
    the error codes [ServerError.code] and [InvalidParams.code] of
    jsonrpcserver, [bytes.decode] and [json.loads].  Byte strings and
    text are both [string]. *)

(** How a call of [JsonRpcMessageValidator.validate] ends. *)
Inductive validation : Type :=
| Valid
| IconServiceBaseException (code : Z) (message : string)
| OtherException (repr : string).

(** ** A node to run

    Stand-ins for what the module imports, used to run the model on
    concrete requests: a validator that asks a transaction for its [from]
    and [to], a serialiser and a digest that only need to be functions,
    the error codes of jsonrpcserver, and a decoder for ASCII bodies. *)

Definition sample_validate (method : string) (params : list (string * json))
  : validation :=
  if String.eqb method "icx_sendTransaction" then
    match dict_get params "from", dict_get params "to" with
    | Some _, Some _ => Valid
    | None, _ => IconServiceBaseException 32602 "'from' not found"
    | _, None => IconServiceBaseException 32602 "'to' not found"
    end
  else Valid.

Definition sample_dumps (v : json) : string :=
  match v with
  | JDict d => String.concat "," (map fst d)
  | _ => ""
  end.

Definition sample_digest (data : string) : string := data.

Definition sample_ServerError_code : Z := -32000.

Definition sample_InvalidParams_code : Z := -32602.

Fixpoint ascii_decode (bytes : string) : option string :=
  match bytes with
  | EmptyString => Some EmptyString
  | String c rest =>
      if Nat.ltb (nat_of_ascii c) 128
      then text ← ascii_decode rest; Some (String c text)
      else None
  end.

(** [n] calls [put('0x..', i)] with the distinct keys [hex(a)],
    [hex(a+1)], ... *)
Definition numbered_puts (a n : nat) : list (json * json) :=
  map (fun i => (JStr (hex (Z.of_nat i)), JInt (Z.of_nat i))) (seq a n).

Section Node.

Context {K : Type} `{Countable K}.
Variable hash_key : json -> option K.
Variable JsonRpcMessageValidator_validate : string -> list (string * json) -> validation.
Variable json_dumps : json -> string.
Variable sha3_256_hexdigest : string -> string.
Variable ServerError_code : Z.
Variable InvalidParams_code : Z.
Variable bytes_decode : string -> option string.
Variable json_loads : string -> option json.

(** *** [TxResultMapper] *)

Record TxResultMapper : Type := {
  limit_capacity : Z;
  mapper : gmap K json;
  key_list : list json
}.

(** [TxResultMapper(limit_capacity)]; the default capacity is 1000. *)
Definition TxResultMapper_init (limit : Z) : TxResultMapper :=
  {| limit_capacity := limit; mapper := ∅; key_list := [] |}.

Definition TxResultMapper_default : TxResultMapper := TxResultMapper_init 1000.

(** [len(self)]. *)
Definition len (self : TxResultMapper) : Z := Z.of_nat (size (mapper self)).

(** [__check_limit]: when the mapping holds more than [limit_capacity]
    entries, take the first key of the log, drop it from the log, and
    delete it from the mapping; [del] raises [KeyError] when the mapping
    has no such key, after the log has been shortened. *)
Definition check_limit (self : TxResultMapper) : outcome unit * TxResultMapper :=
  if Z.ltb (limit_capacity self) (len self) then
    match key_list self with
    | [] => (Raise IndexError, self)
    | key :: rest =>
        let self1 := {| limit_capacity := limit_capacity self;
                        mapper := mapper self;
                        key_list := rest |} in
        match hash_key key with
        | None => (Raise TypeError, self1)
        | Some k =>
            match mapper self !! k with
            | None => (Raise KeyError, self1)
            | Some _ =>
                (Return tt, {| limit_capacity := limit_capacity self;
                               mapper := delete k (mapper self);
                               key_list := rest |})
            end
        end
    end
  else (Return tt, self).

(** [put]: check the limit, append the key to the log, store the value. *)
Definition put (key value : json) (self : TxResultMapper)
  : outcome unit * TxResultMapper :=
  match check_limit self with
  | (Raise e, self1) => (Raise e, self1)
  | (Return _, self1) =>
      let self2 := {| limit_capacity := limit_capacity self1;
                      mapper := mapper self1;
                      key_list := key_list self1 ++ [key] |} in
      match hash_key key with
      | None => (Raise TypeError, self2)
      | Some k =>
          (Return tt, {| limit_capacity := limit_capacity self2;
                         mapper := <[k := value]> (mapper self2);
                         key_list := key_list self2 |})
      end
  end.

(** [get]: [self.__mapper.get(key, None)]. *)
Definition get (key : json) (self : TxResultMapper) : outcome json :=
  match hash_key key with
  | None => Raise TypeError
  | Some k => Return (default JNull (mapper self !! k))
  end.

(** [__getitem__]: [self.__mapper[item]]. *)
Definition getitem_mapper (item : json) (self : TxResultMapper) : outcome json :=
  match hash_key item with
  | None => Raise TypeError
  | Some k =>
      match mapper self !! k with
      | Some v => Return v
      | None => Raise KeyError
      end
  end.

(** A run of [put] calls on one mapper; it stops at the first call that
    raises. *)
Fixpoint put_all (calls : list (json * json)) (self : TxResultMapper)
  : outcome unit * TxResultMapper :=
  match calls with
  | [] => (Return tt, self)
  | (key, value) :: rest =>
      match put key value self with
      | (Return _, self') => put_all rest self'
      | (Raise e, self') => (Raise e, self')
      end
  end.

(** *** Process state and the calls made on the backend

    The module keeps its state in globals: [__block_height] and
    [__tx_result_mapper] ([None] until [init_tbears] runs).  The execution
    backend is reached through [get_icon_inner_task()]; the model records
    every call made on it, oldest first, and takes its answers as given:
    the answer to an execution request is an argument of the handler, and
    commit and rollback answer nothing the module reads.  A backend call
    that raises is not modelled. *)

Inductive backend_call : Type :=
| icx_send_transaction (request : json)
| write_precommit_state (request : json)
| remove_precommit_state (request : json).

Record state : Type := {
  block_height : Z;
  tx_result_mapper : option TxResultMapper;
  backend_calls : list backend_call
}.

(** The globals as the module sets them at import. *)
Definition module_state : state :=
  {| block_height := 0; tx_result_mapper := None; backend_calls := [] |}.

(** [init_tbears]. *)
Definition init_tbears (st : state) : state :=
  {| block_height := block_height st;
     tx_result_mapper := Some TxResultMapper_default;
     backend_calls := backend_calls st |}.

(** A computation reads and updates the state and returns or raises; what
    it changed before raising stays changed. *)
Definition M (A : Type) : Type := state -> outcome A * state.

Definition ret {A : Type} (a : A) : M A := fun st => (Return a, st).

Definition raise {A : Type} (e : exn) : M A := fun st => (Raise e, st).

Definition bind {A B : Type} (c : M A) (k : A -> M B) : M B :=
  fun st =>
    match c st with
    | (Return a, st') => k a st'
    | (Raise e, st') => (Raise e, st')
    end.

Definition lift {A : Type} (o : outcome A) : M A := fun st => (o, st).

(** [try: body  except Exception: raise e]. *)
Definition try_except_raise {A : Type} (body : M A) (e : exn) : M A :=
  fun st =>
    match body st with
    | (Return a, st') => (Return a, st')
    | (Raise _, st') => (Raise e, st')
    end.

Notation "'let!' x ':=' c 'in' k" := (bind c (fun x => k))
  (at level 10, x name, c at level 100, k at level 200, only parsing).
Notation "'do!' c 'in' k" := (bind c (fun _ => k))
  (at level 10, c at level 100, k at level 200, only parsing).

(** [await get_icon_inner_task().<operation>(request)]. *)
Definition await_backend (call : backend_call) : M unit :=
  fun st =>
    (Return tt, {| block_height := block_height st;
                   tx_result_mapper := tx_result_mapper st;
                   backend_calls := backend_calls st ++ [call] |}).

(** [get_block_height]. *)
Definition get_block_height : M Z :=
  fun st =>
    let h := block_height st + 1 in
    (Return h, {| block_height := h;
                  tx_result_mapper := tx_result_mapper st;
                  backend_calls := backend_calls st |}).

(** [get_tx_result_mapper().put(key, value)]. *)
Definition mapper_put (key value : json) : M unit :=
  fun st =>
    match tx_result_mapper st with
    | None => (Raise AttributeError, st)
    | Some m =>
        let (r, m') := put key value m in
        (r, {| block_height := block_height st;
               tx_result_mapper := Some m';
               backend_calls := backend_calls st |})
    end.

(** [get_tx_result_mapper()[item]]. *)
Definition mapper_getitem (item : json) : M json :=
  fun st =>
    match tx_result_mapper st with
    | None => (Raise TypeError, st)
    | Some m => (getitem_mapper item m, st)
    end.

(** [create_hash]. *)
Definition create_hash (data : string) : string :=
  "0x" +:+ sha3_256_hexdigest data.

(** [validate_jsonrpc_message]. *)
Definition validate_jsonrpc_message (method : string) (params : list (string * json))
  : M unit :=
  match JsonRpcMessageValidator_validate method params with
  | Valid => ret tt
  | IconServiceBaseException code message =>
      raise (GenericJsonRpcServerError (JInt (- code)) (JStr message) HTTP_BAD_REQUEST)
  | OtherException repr =>
      raise (GenericJsonRpcServerError (JInt ServerError_code) (JStr repr) HTTP_BAD_REQUEST)
  end.

(** [response_to_json]. *)
Definition response_to_json (response : json) : M json :=
  match response with
  | JList l =>
      let! tx_result := lift (first_item l) in
      let! tx_hash := lift (getitem tx_result "txHash") in
      do! mapper_put tx_hash tx_result in
      ret tx_hash
  | _ =>
      let! code := lift (getitem response "code") in
      let! minus_code := lift (py_neg code) in
      let! message := lift (getitem response "message") in
      raise (GenericJsonRpcServerError minus_code message HTTP_BAD_REQUEST)
  end.

(** The request handed to the backend for one transaction. *)
Definition make_request (request_params : list (string * json))
    (block_height block_timestamp_us : Z) (timestamp_bytes : string) : json :=
  JDict [("transactions",
          JList [JDict [("method", JStr "icx_sendTransaction");
                        ("params", JDict request_params)]]);
         ("block",
          JDict [("blockHeight", JInt block_height);
                 ("blockHash", JStr (create_hash timestamp_bytes));
                 ("timestamp", JInt block_timestamp_us)])].

(** [MockDispatcher.icx_sendTransaction] ([MQ_TEST] is [False]).
    [block_timestamp_us] is the clock reading [int(time.time() * 10 ** 6)]
    and [response] the backend's answer to [icx_send_transaction]. *)
Definition icx_sendTransaction (request_params : list (string * json))
    (block_timestamp_us : Z) (response : json) : M json :=
  let method := "icx_sendTransaction" in
  do! validate_jsonrpc_message method request_params in
  let tx_hash := create_hash (json_dumps (JDict request_params)) in
  let request_params := dict_set request_params "txHash" (JStr tx_hash) in
  let! block_height := get_block_height in
  let! timestamp_bytes := lift (to_bytes_8_big block_timestamp_us) in
  do! await_backend
        (icx_send_transaction
           (make_request request_params block_height block_timestamp_us timestamp_bytes)) in
  do! match response with
      | JList l =>
          let! tx_result := lift (first_item l) in
          let! status := lift (getitem tx_result "status") in
          if py_eq_int status 1
          then await_backend (write_precommit_state (JDict []))
          else await_backend (remove_precommit_state (JDict []))
      | _ => await_backend (remove_precommit_state (JDict []))
      end in
  response_to_json response.

(** [MockDispatcher.icx_getTransactionResult]. *)
Definition icx_getTransactionResult (request_params : list (string * json)) : M json :=
  try_except_raise
    (let! tx_hash := lift (getitem (JDict request_params) "txHash") in
     mapper_getitem tx_hash)
    (GenericJsonRpcServerError (JInt InvalidParams_code)
       (JStr "TransactionResult not found") HTTP_BAD_REQUEST).

(** *** [MockDispatcher.dispatch]

    [request_body] is the raw body of the HTTP request.  jsonrpcserver's
    [methods.dispatch], which runs the registered handler and wraps what
    it returns or raises, is passed in as [methods_dispatch]: the response
    object it builds, a dict with an [http_status] attribute. *)

Record rpc_response : Type := {
  members : list (string * json);
  http_status : Z
}.

(** What is handed to [sanic_response.json]: the object to serialise and
    the HTTP status. *)
Record http_response : Type := {
  body : json;
  status : Z
}.

(** The statements of the [try] block after [json.loads]:
    [req["params"] = req.get("params", {})] and
    [req["params"]["method"] = request.json["method"]]. *)
Definition add_method_to_params (req : json) : outcome json :=
  match req with
  | JDict d =>
      let params := default (JDict []) (dict_get d "params") in
      let d1 := dict_set d "params" params in
      match dict_get d "method" with
      | None => Raise KeyError
      | Some method =>
          match params with
          | JDict p => Return (JDict (dict_set d1 "params" (JDict (dict_set p "method" method))))
          | _ => Raise TypeError
          end
      end
  | _ => Raise AttributeError
  end.

(** The rewriting of a result after dispatch. *)
Definition result_to_hex (res : list (string * json)) : list (string * json) :=
  match dict_get res "result" with
  | Some result =>
      if is_dict_list_int result
      then dict_set res "result" (integers_to_hex result)
      else res
  | None => res
  end.

Definition dispatch (request_body : string) (methods_dispatch : json -> rpc_response)
  : outcome http_response :=
  match bytes_decode request_body with
  | None => Raise UnicodeDecodeError
  | Some text =>
      match json_loads text with
      | None => Return {| body := JStr PARSE_ERROR_RESPONSE; status := 400 |}
      | Some req =>
          match add_method_to_params req with
          | Raise e => Raise e
          | Return req' =>
              let res := methods_dispatch req' in
              Return {| body := JDict (result_to_hex (members res));
                        status := http_status res |}
          end
      end
  end.

(** *** Runs of submissions and what the backend saw *)

(** One call of [icx_sendTransaction]: the parameters, the clock reading
    and the backend's answer. *)
Record submission : Type := {
  sub_params : list (string * json);
  sub_timestamp : Z;
  sub_response : json
}.

(** The calls one after the other, whatever each returns or raises. *)
Fixpoint submit_all (subs : list submission) (st : state) : state :=
  match subs with
  | [] => st
  | s :: rest =>
      submit_all rest
        (snd (icx_sendTransaction (sub_params s) (sub_timestamp s) (sub_response s) st))
  end.

(** [request['block']['blockHeight']] of an execution request. *)
Definition request_block_height (request : json) : option Z :=
  match getitem request "block" with
  | Return block =>
      match getitem block "blockHeight" with
      | Return (JInt h) => Some h
      | _ => None
      end
  | Raise _ => None
  end.

(** The block heights the backend was given, oldest first. *)
Definition observed_heights (calls : list backend_call) : list Z :=
  omap (fun c => match c with
                 | icx_send_transaction request => request_block_height request
                 | _ => None
                 end) calls.

(** The three shapes of a backend answer the specification names: a list
    whose first entry has the success status, a list whose first entry
    has another status, and anything that is not a list. *)
Inductive reply_shape : Type :=
| SuccessStatusList
| FailureStatusList
| NonList.

Definition reply_shape_of (response : json) : option reply_shape :=
  match response with
  | JList (JDict d :: _) =>
      match dict_get d "status" with
      | Some status =>
          Some (if py_eq_int status 1 then SuccessStatusList else FailureStatusList)
      | None => None
      end
  | JList _ => None
  | _ => Some NonList
  end.

(** Commit for the success shape, rollback for the other two. *)
Definition finalization (shape : reply_shape) : backend_call :=
  match shape with
  | SuccessStatusList => write_precommit_state (JDict [])
  | FailureStatusList | NonList => remove_precommit_state (JDict [])
  end.

(** The stored result a [txHash] parameter designates, if the parameters
    have the field and the cache has the key. *)
Definition cached_result (request_params : list (string * json)) (st : state)
  : option json :=
  tx_hash ← dict_get request_params "txHash";
  m ← tx_result_mapper st;
  k ← hash_key tx_hash;
  mapper m !! k.

Definition not_found : exn :=
  GenericJsonRpcServerError (JInt InvalidParams_code)
    (JStr "TransactionResult not found") HTTP_BAD_REQUEST.

(** *** Insertion order as the specification words it

    The keys of a history of insertions, each key once, at the place of
    its most recent insertion; and the oldest of them still in the
    mapping. *)
Fixpoint by_most_recent_insertion (history : list K) : list K :=
  match history with
  | [] => []
  | k :: later =>
      if decide (k ∈ later) then by_most_recent_insertion later
      else k :: by_most_recent_insertion later
  end.

Definition oldest_surviving (history : list K) (m : gmap K json) : option K :=
  head (filter (fun k => is_Some (m !! k)) (by_most_recent_insertion history)).

(** [k] was in the mapping before and is not after. *)
Definition removed (before after : gmap K json) (k : K) : Prop :=
  is_Some (before !! k) /\ after !! k = None.

(** A submission is accepted when it passes validation; its clock
    reading is one that [to_bytes(8, 'big')] can encode. *)
Definition accepted (s : submission) : Prop :=
  JsonRpcMessageValidator_validate "icx_sendTransaction" (sub_params s) = Valid /\
  0 <= sub_timestamp s < 2 ^ 64.

(** The log of a mapper: at least as long as the mapping is large, and
    made of hashable keys. *)
Definition log_ok (self : TxResultMapper) : Prop :=
  (size (mapper self) <= length (key_list self))%nat /\
  Forall (fun key => is_Some (hash_key key)) (key_list self).

(** The eviction rule in the specification's words, for one [put] after
    a run of calls on a fresh mapper: when the [put] evicts, the key that
    leaves the mapping is the oldest surviving one, a key inserted
    several times counting from its most recent insertion. *)
Definition evicts_oldest_by_most_recent_insertion (limit : Z)
    (calls : list (json * json)) (key value : json) : Prop :=
  let run := put_all calls (TxResultMapper_init limit) in
  let after := put key value (snd run) in
  fst run = Return tt ->
  limit < len (snd run) ->
  fst after = Return tt ->
  forall victim,
    oldest_surviving (omap hash_key (map fst calls)) (mapper (snd run)) = Some victim ->
    forall k, removed (mapper (snd run)) (mapper (snd after)) k <-> k = victim.

(** *** More of the module: runs that go on after a raise, and the query
    handlers *)

(** [put] calls one after the other on one mapper, whatever each returns
    or raises. *)
Fixpoint put_each (calls : list (json * json)) (self : TxResultMapper)
  : TxResultMapper :=
  match calls with
  | [] => self
  | (key, value) :: rest => put_each rest (snd (put key value self))
  end.

(** Every key of the mapping has an entry in the log. *)
Definition logged (self : TxResultMapper) : Prop :=
  forall k, is_Some (mapper self !! k) ->
            exists key, key ∈ key_list self /\ hash_key key = Some k.

(** The request a query handler hands to the backend's [icx_call]. *)
Definition make_query (method : string) (request_params : list (string * json)) : json :=
  JDict [("method", JStr method); ("params", JDict request_params)].

(** The query handlers [MockDispatcher.icx_call], [icx_getBalance] and
    [icx_getTotalSupply] ([MQ_TEST] is [False]).  They read and write no
    global; a run is what the handler returns or raises together with the
    requests it sent to the backend's [icx_call], whose answer is
    [response]. *)
Definition icx_call (request_params : list (string * json)) (response : json)
    (st : state) : outcome json * list json :=
  let method := "icx_call" in
  match fst (validate_jsonrpc_message method request_params st) with
  | Raise e => (Raise e, [])
  | Return _ =>
      let make_request := make_query method request_params in
      (Return response, [make_request])
  end.

Definition icx_getBalance (request_params : list (string * json)) (response : json)
    (st : state) : outcome json * list json :=
  let method := "icx_getBalance" in
  let make_request := make_query method request_params in
  match fst (validate_jsonrpc_message method request_params st) with
  | Raise e => (Raise e, [])
  | Return _ => (Return response, [make_request])
  end.

Definition icx_getTotalSupply (request_params : list (string * json)) (response : json)
  : outcome json * list json :=
  let method := "icx_getTotalSupply" in
  let make_request := make_query method request_params in
  (Return response, [make_request]).

(** The heights in a list grow strictly from left to right. *)
Definition strictly_increasing (heights : list Z) : Prop :=
  forall i j hi hj,
    (i < j)%nat -> heights !! i = Some hi -> heights !! j = Some hj -> hi < hj.

(** *** [load_config]

    [default_conf], the membership test [key in conf] and the assignment
    [conf[key] = value] on whatever [json.load] returned, and the loop
    that fills in the missing keys.  The file is [None] when [open]
    raises [OSError]; otherwise it is its bytes. *)

Definition default_conf_items : list (string * json) :=
  [("from", JStr "hxaaaaaaaaaaaaaaaaaaaaaaaaaaaaaaaaaaaaaaaa");
   ("port", JInt 9000);
   ("scoreRoot", JStr "./.score");
   ("dbRoot", JStr "./.db");
   ("accounts",
    JList [JDict [("name", JStr "genesis");
                  ("address", JStr "hx0000000000000000000000000000000000000000");
                  ("balance", JStr "0x2961fff8ca4a62327800000")];
           JDict [("name", JStr "treasury");
                  ("address", JStr "hx1000000000000000000000000000000000000000");
                  ("balance", JStr "0x0")]]);
   ("log",
    JDict [("level", JStr "debug");
           ("filePath", JStr "./tbears.log");
           ("outputType", JStr "console|file")])].

Definition default_conf : json := JDict default_conf_items.

(** [needle in hay] on two strings: [needle] occurs in [hay]. *)
Fixpoint is_substring (needle hay : string) : bool :=
  String.prefix needle hay
  || match hay with
     | EmptyString => false
     | String _ rest => is_substring needle rest
     end.

(** [key in conf] for a string [key]: a key of a dict, an element of a
    list, a substring of a string; [TypeError] on a value that is not
    iterable. *)
Definition py_contains (key : string) (conf : json) : outcome bool :=
  match conf with
  | JDict d => Return (bool_decide (is_Some (dict_get d key)))
  | JList l =>
      Return (existsb (fun v => match v with
                                | JStr s => String.eqb s key
                                | _ => false
                                end) l)
  | JStr s => Return (is_substring key s)
  | _ => Raise TypeError
  end.

(** [conf[key] = value] for a string [key]: defined on a dict only. *)
Definition py_setitem (conf : json) (key : string) (value : json) : outcome json :=
  match conf with
  | JDict d => Return (JDict (dict_set d key value))
  | _ => Raise TypeError
  end.

(** [for key in default_conf: if key not in conf: conf[key] = default_conf[key]]. *)
Fixpoint fill_defaults (defaults : list (string * json)) (conf : json) : outcome json :=
  match defaults with
  | [] => Return conf
  | (key, value) :: rest =>
      match py_contains key conf with
      | Raise e => Raise e
      | Return true => fill_defaults rest conf
      | Return false =>
          match py_setitem conf key value with
          | Raise e => Raise e
          | Return conf' => fill_defaults rest conf'
          end
      end
  end.

(** How [load_config] ends: with a configuration, with one of the
    exceptions above, or with [json.load]'s [JSONDecodeError]. *)
Inductive config_outcome : Type :=
| Loaded (conf : json)
| LoadRaises (e : exn)
| LoadJSONDecodeError.

Definition load_config (file : option string) : config_outcome :=
  match file with
  | None => Loaded default_conf
  | Some bytes =>
      match bytes_decode bytes with
      | None => LoadRaises UnicodeDecodeError
      | Some text =>
          match json_loads text with
          | None => LoadJSONDecodeError
          | Some conf =>
              match fill_defaults default_conf_items conf with
              | Return conf' => Loaded conf'
              | Raise e => LoadRaises e
              end
          end
      end
  end.

(** *** [tbears_cli.main]

    [command] is [args.command], the words of the command line;
    [title] is [str.title].  The program ends by printing the help and
    exiting with [ExitCode.COMMAND_IS_WRONG], or by exiting with what
    [init(project, score_class)] or [run()] returns. *)
Inductive cli_outcome : Type :=
| Help_COMMAND_IS_WRONG
| Exit_init (project score_class : string)
| Exit_run.

Definition main (title : string -> string) (command : list string) : cli_outcome :=
  if Nat.ltb (length command) 2 then Help_COMMAND_IS_WRONG
  else
    let command0 := nth 0 command "" in
    if String.eqb command0 "init" && Nat.eqb (length command) 3
    then Exit_init (nth 1 command "") (title (nth 2 command ""))
    else if String.eqb command0 "run" then Exit_run
    else Help_COMMAND_IS_WRONG.

(** * Properties *)

(** ** Induction on values *)

Lemma json_ind (P : json -> Prop) :
  P JNull ->
  (forall b, P (JBool b)) ->
  (forall n, P (JInt n)) ->
  (forall bits, P (JFloat bits)) ->
  (forall s, P (JStr s)) ->
  (forall l, Forall P l -> P (JList l)) ->
  (forall d, Forall (fun kv => P (snd kv)) d -> P (JDict d)) ->
  forall v, P v.
Proof.
  intros Hnull Hbool Hint Hfloat Hstr Hlist Hdict.
  fix self 1.
  intros [ | b | n | bits | s | l | d].
  - exact Hnull.
  - apply Hbool.
  - apply Hint.
  - apply Hfloat.
  - apply Hstr.
  - apply Hlist. induction l as [ | x l IHl]; constructor; [apply self | exact IHl].
  - apply Hdict. induction d as [ | [k x] d IHd]; constructor; [apply self | exact IHd].
Qed.

(** ** [hex] *)

Example hex_255 : hex 255 = "0xff".
Proof. reflexivity. Qed.

Example hex_0 : hex 0 = "0x0".
Proof. reflexivity. Qed.

Example hex_minus_255 : hex (-255) = "-0xff".
Proof. reflexivity. Qed.

Example hex_2_64 : hex (2 ^ 64) = "0x10000000000000000".
Proof. reflexivity. Qed.

Lemma hex_digit_sound (d : Z) :
  0 <= d < 16 ->
  hex_digit_value (hex_digit d) = d /\ is_lower_hex (hex_digit d) = true.
Proof.
  intros Hd.
  assert (Hcases : d = 0 \/ d = 1 \/ d = 2 \/ d = 3 \/ d = 4 \/ d = 5 \/ d = 6 \/ d = 7
                   \/ d = 8 \/ d = 9 \/ d = 10 \/ d = 11 \/ d = 12 \/ d = 13
                   \/ d = 14 \/ d = 15) by lia.
  repeat (destruct Hcases as [-> | Hcases]; [split; reflexivity | ]).
  subst d. split; reflexivity.
Qed.

(** The digits written for [n] denote [n] and are lowercase hex
    digits. *)
Lemma hex_digits_sound (fuel : nat) (n : Z) (acc : string) :
  0 <= n < 16 ^ Z.of_nat (S fuel) ->
  hex_value (hex_digits fuel n acc) 0 = hex_value acc n /\
  all_lower_hex (hex_digits fuel n acc) = all_lower_hex acc.
Proof.
  revert n acc. induction fuel as [ | fuel IH]; intros n acc Hn.
  - change (16 ^ Z.of_nat 1) with 16 in Hn.
    destruct (hex_digit_sound n Hn) as [Hvalue Hlower].
    simpl. rewrite Z.mod_small by lia. rewrite Hvalue, Hlower. done.
  - assert (Hdigit : 0 <= n mod 16 < 16) by (apply Z.mod_pos_bound; lia).
    destruct (hex_digit_sound _ Hdigit) as [Hvalue Hlower].
    simpl hex_digits. destruct (Z.eqb_spec (n / 16) 0) as [Hsmall | Hlarge].
    + simpl. rewrite Hvalue, Hlower. split; [ | done].
      f_equal. pose proof (Z.div_mod n 16); lia.
    + destruct (IH (n / 16) (String (hex_digit (n mod 16)) acc)) as [IHvalue IHlower].
      { split; [apply Z.div_pos; lia | ].
        apply Z.div_lt_upper_bound; [lia | ].
        rewrite <- Z.pow_succ_r by lia. rewrite <- Nat2Z.inj_succ. lia. }
      rewrite IHvalue, IHlower. simpl. rewrite Hvalue, Hlower. split; [ | done].
      f_equal. pose proof (Z.div_mod n 16); lia.
Qed.

Lemma hex_magnitude_sound (n : Z) :
  0 <= n ->
  hex_value (hex_magnitude n) 0 = n /\ all_lower_hex (hex_magnitude n) = true.
Proof.
  intros Hn. unfold hex_magnitude.
  destruct (hex_digits_sound (Z.to_nat (Z.log2 n)) n "") as [Hvalue Hlower]; [ | done].
  split; [lia | ].
  rewrite Nat2Z.inj_succ, Z2Nat.id by apply Z.log2_nonneg.
  destruct (Z.eq_dec n 0) as [-> | Hpos]; [reflexivity | ].
  pose proof (Z.log2_spec n ltac:(lia)) as [_ Hlog].
  eapply Z.lt_le_trans; [exact Hlog | ].
  apply Z.pow_le_mono_l. lia.
Qed.

(** [hex] of a non-negative integer is ['0x'] followed by lowercase hex
    digits that denote it; of a negative one, ['-0x'] and the digits of
    its magnitude. *)
Lemma hex_sound (n : Z) :
  exists digits,
    hex n = (if Z.ltb n 0 then "-0x" else "0x") +:+ digits /\
    all_lower_hex digits = true /\
    hex_value digits 0 = Z.abs n.
Proof.
  unfold hex. destruct (Z.ltb_spec n 0) as [Hneg | Hnonneg].
  - exists (hex_magnitude (- n)).
    destruct (hex_magnitude_sound (- n)) as [Hvalue Hlower]; [lia | ].
    repeat split; [exact Hlower | lia].
  - exists (hex_magnitude n).
    destruct (hex_magnitude_sound n Hnonneg) as [Hvalue Hlower].
    repeat split; [exact Hlower | lia].
Qed.

(** ** The runtime operations on samples *)

Example float_one : float_integer 0x3FF0000000000000 = Some 1.
Proof. reflexivity. Qed.

Example float_minus_two : float_integer 0xC000000000000000 = Some (-2).
Proof. reflexivity. Qed.

Example float_half : float_integer 0x3FE0000000000000 = None.
Proof. reflexivity. Qed.

Example float_thousand : float_integer 0x408F400000000000 = Some 1000.
Proof. reflexivity. Qed.

Example status_one_float : py_eq_int (JFloat 0x3FF0000000000000) 1 = true.
Proof. reflexivity. Qed.

Example status_true : py_eq_int (JBool true) 1 = true.
Proof. reflexivity. Qed.

Example status_string : py_eq_int (JStr "1") 1 = false.
Proof. reflexivity. Qed.

Example to_bytes_258 :
  to_bytes_8_big 258
  = Return (String "000" (String "000" (String "000" (String "000"
           (String "000" (String "000" (String "001" (String "002" "")))))))).
Proof. reflexivity. Qed.

Example to_bytes_negative : to_bytes_8_big (-1) = Raise OverflowError.
Proof. reflexivity. Qed.

Example read_nested :
  json_read "[1, -2, [], {}, true, null, [ {  } ] ]"
  = Some (JList [JInt 1; JInt (-2); JList []; JDict []; JBool true; JNull;
                 JList [JDict []]]).
Proof. vm_compute. reflexivity. Qed.

Example read_broken : json_read "[1,]" = None.
Proof. vm_compute. reflexivity. Qed.

(** ** [integers_to_hex] *)

Example integers_to_hex_nested :
  integers_to_hex
    (JDict [("a", JInt 10);
            ("b", JList [JInt 1; JStr "x"; JDict [("c", JBool true)]; JFloat 0]);
            ("c", JNull)])
  = JDict [("a", JStr "0xa");
           ("b", JList [JStr "0x1"; JStr "x"; JDict [("c", JStr "0x1")]; JFloat 0]);
           ("c", JNull)].
Proof. reflexivity. Qed.

(** On the members of a container the function is the deep rewriting. *)
Lemma member_rewrite_deep (v : json) :
  match v with
  | JDict _ => integers_to_hex v
  | JList _ => integers_to_hex v
  | JInt n => JStr (hex n)
  | JBool b => JStr (hex (Z.b2z b))
  | _ => v
  end = deep_hex v.
Proof.
  induction v as [ | b | n | bits | s | l IH | d IH] using json_ind; try reflexivity.
  - simpl. f_equal. apply map_ext_Forall. exact IH.
  - simpl. f_equal. apply map_ext_Forall.
    eapply Forall_impl; [exact IH | ].
    intros [k x] Hx; simpl in *. f_equal. destruct x; exact Hx.
Qed.

Lemma integers_to_hex_list (l : list json) :
  integers_to_hex (JList l) = JList (map deep_hex l).
Proof. exact (member_rewrite_deep (JList l)). Qed.

Lemma integers_to_hex_dict (d : list (string * json)) :
  integers_to_hex (JDict d) = JDict (map (fun kv => (fst kv, deep_hex (snd kv))) d).
Proof. exact (member_rewrite_deep (JDict d)). Qed.

Lemma deep_hex_integer_free (v : json) : integer_free (deep_hex v) = true.
Proof.
  induction v as [ | b | n | bits | s | l IH | d IH] using json_ind; try reflexivity.
  - simpl. rewrite forallb_forall. intros y Hy.
    apply in_map_iff in Hy as (x & <- & Hx).
    rewrite Forall_forall in IH. apply IH. apply list_elem_of_In, Hx.
  - simpl. rewrite forallb_forall. intros y Hy.
    apply in_map_iff in Hy as (x & <- & Hx).
    rewrite Forall_forall in IH. apply (IH x). apply list_elem_of_In, Hx.
Qed.

(** A value without integers is left as it is, at every depth. *)
Lemma deep_hex_fixed (v : json) : integer_free v = true -> deep_hex v = v.
Proof.
  induction v as [ | b | n | bits | s | l IH | d IH] using json_ind;
    simpl; intros Hfree; try reflexivity; try discriminate.
  - f_equal. rewrite <- (map_id l) at 2. apply map_ext_Forall.
    rewrite forallb_forall in Hfree. rewrite Forall_forall in IH |- *.
    intros x Hx. apply IH; [exact Hx | ]. apply Hfree, list_elem_of_In, Hx.
  - f_equal. rewrite <- (map_id d) at 2. apply map_ext_Forall.
    rewrite forallb_forall in Hfree. rewrite Forall_forall in IH |- *.
    intros [k x] Hx; simpl. f_equal.
    apply (IH (k, x)); [exact Hx | ]. apply (Hfree (k, x)), list_elem_of_In, Hx.
Qed.

Lemma integers_to_hex_container_or_same (v : json) :
  integers_to_hex v = match v with JList _ | JDict _ => deep_hex v | _ => v end.
Proof.
  destruct v; try reflexivity.
  - apply integers_to_hex_list.
  - apply integers_to_hex_dict.
Qed.

(** C9: normalising twice is normalising once (strings, hex strings
    among them, are never converted again), and inside a list or a dict
    the rewriting reaches every depth: the result is the deep rewriting
    of each member and holds no integer any more. *)
Theorem integers_to_hex_idempotent :
  (forall v, integers_to_hex (integers_to_hex v) = integers_to_hex v) /\
  (forall s, integers_to_hex (JStr s) = JStr s /\ deep_hex (JStr s) = JStr s) /\
  (forall l, integers_to_hex (JList l) = JList (map deep_hex l)) /\
  (forall d, integers_to_hex (JDict d)
             = JDict (map (fun kv => (fst kv, deep_hex (snd kv))) d)) /\
  (forall l, integer_free (integers_to_hex (JList l)) = true) /\
  (forall d, integer_free (integers_to_hex (JDict d)) = true).
Proof.
  repeat split.
  - intros v. rewrite (integers_to_hex_container_or_same v).
    destruct v; try reflexivity.
    + change (integers_to_hex (deep_hex (JList l)) = deep_hex (JList l)).
      rewrite integers_to_hex_container_or_same. simpl deep_hex at 1.
      change (deep_hex (deep_hex (JList l)) = deep_hex (JList l)).
      apply deep_hex_fixed, deep_hex_integer_free.
    + change (integers_to_hex (deep_hex (JDict d)) = deep_hex (JDict d)).
      rewrite integers_to_hex_container_or_same. simpl deep_hex at 1.
      change (deep_hex (deep_hex (JDict d)) = deep_hex (JDict d)).
      apply deep_hex_fixed, deep_hex_integer_free.
  - apply integers_to_hex_list.
  - apply integers_to_hex_dict.
  - intros l. rewrite integers_to_hex_list. apply (deep_hex_integer_free (JList l)).
  - intros d. rewrite integers_to_hex_dict. apply (deep_hex_integer_free (JDict d)).
Qed.

(** ** [TxResultMapper] *)

(** The capacity never changes. *)
Lemma check_limit_capacity (self : TxResultMapper) :
  limit_capacity (snd (check_limit self)) = limit_capacity self.
Proof.
  unfold check_limit.
  destruct (Z.ltb _ _); [ | reflexivity].
  destruct (key_list self) as [ | key rest]; [reflexivity | ].
  destruct (hash_key key) as [k | ]; [ | reflexivity].
  destruct (mapper self !! k); reflexivity.
Qed.

Lemma put_capacity (key value : json) (self : TxResultMapper) :
  limit_capacity (snd (put key value self)) = limit_capacity self.
Proof.
  unfold put. pose proof (check_limit_capacity self) as Hc.
  destruct (check_limit self) as [[[] | e] self1]; simpl in *; [ | exact Hc].
  destruct (hash_key key); simpl; exact Hc.
Qed.

(** How a [put] that returns has changed the mapper: below the limit it
    only adds; above the limit it first removes the key at the head of
    the log, which was in the mapping. *)
Lemma put_Return (key value : json) (self self' : TxResultMapper) :
  put key value self = (Return tt, self') ->
  exists kk, hash_key key = Some kk /\
    ((len self <= limit_capacity self /\
      self' = {| limit_capacity := limit_capacity self;
                 mapper := <[kk := value]> (mapper self);
                 key_list := key_list self ++ [key] |})
     \/
     (limit_capacity self < len self /\
      exists first rest k0,
        key_list self = first :: rest /\ hash_key first = Some k0 /\
        is_Some (mapper self !! k0) /\
        self' = {| limit_capacity := limit_capacity self;
                   mapper := <[kk := value]> (delete k0 (mapper self));
                   key_list := rest ++ [key] |})).
Proof.
  unfold put, check_limit.
  destruct (Z.ltb_spec (limit_capacity self) (len self)) as [Hover | Hfits].
  - destruct (key_list self) as [ | first rest] eqn:Hlog; [discriminate | ].
    destruct (hash_key first) as [k0 | ] eqn:Hfirst; [ | discriminate].
    destruct (mapper self !! k0) as [old | ] eqn:Hold; [ | discriminate].
    simpl. destruct (hash_key key) as [kk | ] eqn:Hkey; [ | discriminate].
    intros [= <-]. exists kk. split; [reflexivity | ]. right.
    split; [exact Hover | ]. exists first, rest, k0. eauto.
  - simpl. destruct (hash_key key) as [kk | ] eqn:Hkey; [ | discriminate].
    intros [= <-]. exists kk. split; [reflexivity | ]. left. split; [lia | reflexivity].
Qed.

(** The mapping never holds more than one entry above the capacity,
    whether [put] returns or raises. *)
Lemma put_len_bound (key value : json) (self : TxResultMapper) :
  len self <= limit_capacity self + 1 ->
  len (snd (put key value self)) <= limit_capacity self + 1.
Proof.
  intros Hbound. unfold put, check_limit, len in *.
  destruct (Z.ltb_spec (limit_capacity self) (Z.of_nat (size (mapper self))))
    as [Hover | Hfits].
  - destruct (key_list self) as [ | first rest]; [exact Hbound | ].
    destruct (hash_key first) as [k0 | ]; [ | exact Hbound].
    destruct (mapper self !! k0) as [old | ] eqn:Hold; [ | exact Hbound].
    assert (Hdel : size (delete k0 (mapper self)) = pred (size (mapper self)))
      by (apply map_size_delete_Some; eauto).
    assert (Hpos : size (mapper self) <> 0%nat)
      by (apply (map_size_ne_0_lookup_2 _ k0); eauto).
    simpl. destruct (hash_key key) as [kk | ]; simpl.
    + rewrite map_size_insert. destruct (delete k0 (mapper self) !! kk); simpl; unfold id; lia.
    + lia.
  - simpl. destruct (hash_key key) as [kk | ]; simpl.
    + rewrite map_size_insert. destruct (mapper self !! kk); simpl; unfold id; lia.
    + lia.
Qed.

Lemma put_all_len_bound (calls : list (json * json)) (self : TxResultMapper) :
  len self <= limit_capacity self + 1 ->
  len (snd (put_all calls self)) <= limit_capacity self + 1.
Proof.
  revert self. induction calls as [ | [key value] calls IH]; intros self Hbound.
  - exact Hbound.
  - simpl. pose proof (put_len_bound key value self Hbound) as Hstep.
    pose proof (put_capacity key value self) as Hcap.
    destruct (put key value self) as [[[] | e] self1]; simpl in *.
    + rewrite <- Hcap. apply IH. rewrite Hcap. exact Hstep.
    + exact Hstep.
Qed.

Lemma put_log_ok (key value : json) (self self' : TxResultMapper) :
  log_ok self -> put key value self = (Return tt, self') -> log_ok self'.
Proof.
  intros [Hsize Hhash] Hput.
  apply put_Return in Hput as (kk & Hkey & [[_ ->] | [_ (first & rest & k0 & Hlog & Hfirst & Hin & ->)]]).
  - split; simpl.
    + rewrite length_app, map_size_insert. simpl.
      destruct (mapper self !! kk); simpl; unfold id; lia.
    + apply Forall_app. split; [exact Hhash | ]. constructor; [eauto | constructor].
  - rewrite Hlog in Hsize, Hhash. simpl in Hsize.
    split; simpl.
    + rewrite length_app, map_size_insert. simpl.
      pose proof (map_size_delete_Some k0 (mapper self) Hin).
      pose proof (map_size_ne_0_lookup_2 (mapper self) k0 Hin).
      destruct (delete k0 (mapper self) !! kk); simpl; unfold id; lia.
    + apply Forall_app. inversion Hhash; subst.
      split; [assumption | ]. constructor; [eauto | constructor].
Qed.

(** One [put] appends to the log and drops at most its head. *)
Lemma put_log_suffix (key value : json) (self self' : TxResultMapper) :
  put key value self = (Return tt, self') ->
  exists e, (e <= length (key_list self))%nat /\
            key_list self' = drop e (key_list self ++ [key]).
Proof.
  intros Hput.
  apply put_Return in Hput as (kk & Hkey & [[_ ->] | [_ (first & rest & k0 & Hlog & Hfirst & Hin & ->)]]).
  - exists 0%nat. split; [lia | reflexivity].
  - exists 1%nat. rewrite Hlog. split; [simpl; lia | reflexivity].
Qed.

(** After a run of calls that all returned, the log is the sequence of
    inserted keys without its first [e] entries: each eviction has used
    up the oldest insertion still logged. *)
Lemma put_all_log_suffix (calls : list (json * json)) (self m : TxResultMapper) :
  put_all calls self = (Return tt, m) ->
  exists e, key_list m = drop e (key_list self ++ map fst calls).
Proof.
  revert self. induction calls as [ | [key value] calls IH]; intros self Hrun.
  - simpl in Hrun. injection Hrun as <-. exists 0%nat. simpl. by rewrite app_nil_r.
  - simpl in Hrun.
    destruct (put key value self) as [[[] | err] self1] eqn:Hput; [ | discriminate].
    apply put_log_suffix in Hput as (e0 & He0 & Hlog1).
    apply IH in Hrun as (e & Hlog).
    exists (e0 + e)%nat. rewrite Hlog, Hlog1. simpl.
    rewrite <- drop_drop. f_equal. symmetry.
    rewrite (cons_middle key (key_list self) (map fst calls)), app_assoc.
    apply drop_app_le. rewrite length_app. simpl. lia.
Qed.

Lemma put_all_log_ok (calls : list (json * json)) (self m : TxResultMapper) :
  log_ok self -> put_all calls self = (Return tt, m) -> log_ok m.
Proof.
  revert self. induction calls as [ | [key value] calls IH]; intros self Hok Hrun.
  - simpl in Hrun. by injection Hrun as <-.
  - simpl in Hrun.
    destruct (put key value self) as [[[] | err] self1] eqn:Hput; [ | discriminate].
    eapply IH; [ | exact Hrun]. eapply put_log_ok; eauto.
Qed.

Lemma put_all_capacity (calls : list (json * json)) (self : TxResultMapper) :
  limit_capacity (snd (put_all calls self)) = limit_capacity self.
Proof.
  revert self. induction calls as [ | [key value] calls IH]; intros self; [reflexivity | ].
  simpl. pose proof (put_capacity key value self) as Hcap.
  destruct (put key value self) as [[[] | e] self1]; simpl in *.
  - rewrite IH. exact Hcap.
  - exact Hcap.
Qed.

(** C3, as the code has it: after calls that all returned, the log is
    the insertion history minus the entries used up by earlier evictions;
    a [put] on a mapping above its capacity removes the key at the head
    of that log, the oldest insertion still logged, when that key is
    still in the mapping, then stores the new entry; no other entry is
    removed. *)
Theorem put_evicts_head_of_log (limit : Z) (calls : list (json * json))
    (m : TxResultMapper) (key value : json) (kk : K) :
  0 <= limit ->
  put_all calls (TxResultMapper_init limit) = (Return tt, m) ->
  limit < len m ->
  hash_key key = Some kk ->
  exists (e : nat) (first : json) (k0 : K),
    map fst calls !! e = Some first /\
    key_list m = drop e (map fst calls) /\
    hash_key first = Some k0 /\
    (is_Some (mapper m !! k0) ->
     put key value m
     = (Return tt, {| limit_capacity := limit;
                      mapper := <[kk := value]> (delete k0 (mapper m));
                      key_list := drop (S e) (map fst calls) ++ [key] |})).
Proof.
  intros Hlimit Hrun Hover Hkey.
  pose proof (put_all_capacity calls (TxResultMapper_init limit)) as Hcap.
  rewrite Hrun in Hcap. simpl in Hcap.
  destruct (put_all_log_suffix _ _ _ Hrun) as (e & Hlog). simpl in Hlog.
  assert (Hok : log_ok m).
  { eapply put_all_log_ok; [ | exact Hrun]. split; simpl.
    - rewrite map_size_empty. lia.
    - constructor. }
  destruct Hok as [Hsize Hhash].
  destruct (key_list m) as [ | first rest] eqn:Hm.
  { unfold len in Hover. simpl in Hsize. lia. }
  destruct (Forall_inv Hhash) as [k0 Hfirst].
  assert (Hat : map fst calls !! e = Some first).
  { rewrite <- (Nat.add_0_r e), <- lookup_drop, <- Hlog. reflexivity. }
  exists e, first, k0. repeat split; try assumption.
  intros [old Hold]. unfold put, check_limit. rewrite Hcap.
  destruct (Z.ltb_spec limit (len m)) as [_ | ?]; [ | lia].
  rewrite Hm, Hfirst, Hold. simpl. rewrite Hkey. simpl.
  rewrite (drop_S _ _ _ Hat) in Hlog. by injection Hlog as ->.
Qed.

(** ** The handlers *)

Ltac unfold_monad :=
  unfold bind, lift, ret, raise, try_except_raise, await_backend,
    get_block_height, mapper_put, mapper_getitem in *.

(** Storing a result makes no call on the backend and leaves the block
    height alone. *)
Lemma response_to_json_frame (response : json) (st : state) :
  backend_calls (snd (response_to_json response st)) = backend_calls st /\
  block_height (snd (response_to_json response st)) = block_height st.
Proof.
  unfold response_to_json. unfold_monad.
  destruct response as [ | b | n | bits | s | l | d]; simpl;
    repeat (case_match; simpl); simplify_eq/=; auto.
Qed.

Lemma validate_Valid (method : string) (params : list (string * json)) (st : state) :
  JsonRpcMessageValidator_validate method params = Valid ->
  validate_jsonrpc_message method params st = (Return tt, st).
Proof. intros Hvalid. unfold validate_jsonrpc_message. by rewrite Hvalid. Qed.

Lemma to_bytes_8_big_Return (n : Z) :
  0 <= n < 2 ^ 64 -> exists bytes, to_bytes_8_big n = Return bytes.
Proof.
  intros [Hlow Hhigh]. unfold to_bytes_8_big.
  destruct (Z.ltb_spec n 0); [lia | ].
  destruct (Z.leb_spec (2 ^ 64) n); [lia | ].
  eauto.
Qed.

Lemma bind_Return {A B : Type} (c : M A) (k : A -> M B) (st st' : state) (a : A) :
  c st = (Return a, st') -> bind c k st = k a st'.
Proof. intros Hc. unfold bind. by rewrite Hc. Qed.

Lemma bind_Raise {A B : Type} (c : M A) (k : A -> M B) (st st' : state) (e : exn) :
  c st = (Raise e, st') -> bind c k st = (Raise e, st').
Proof. intros Hc. unfold bind. by rewrite Hc. Qed.

(** A commit or rollback followed by the storing of the result adds that
    one call to the record. *)
Lemma finalize_then_store (c : backend_call) (response : json) (st : state) :
  let st' := snd (bind (await_backend c) (fun _ => response_to_json response) st) in
  block_height st' = block_height st /\
  backend_calls st' = backend_calls st ++ [c].
Proof.
  erewrite bind_Return by reflexivity.
  destruct (response_to_json_frame response
              {| block_height := block_height st;
                 tx_result_mapper := tx_result_mapper st;
                 backend_calls := backend_calls st ++ [c] |}) as [Hc Hh].
  simpl in *. by rewrite Hc, Hh.
Qed.

(** The commit-or-rollback decision: on an answer of one of the three
    shapes it is the one backend call of that shape; on any other answer
    it raises before any call. *)
Lemma decision_cases {A : Type} (response : json) (k : unit -> M A) (st : state) :
  (exists shape,
      reply_shape_of response = Some shape /\
      bind match response with
           | JList l =>
               let! tx_result := lift (first_item l) in
               let! status := lift (getitem tx_result "status") in
               if py_eq_int status 1
               then await_backend (write_precommit_state (JDict []))
               else await_backend (remove_precommit_state (JDict []))
           | _ => await_backend (remove_precommit_state (JDict []))
           end k st
      = bind (await_backend (finalization shape)) k st)
  \/
  (exists e,
      reply_shape_of response = None /\
      bind match response with
           | JList l =>
               let! tx_result := lift (first_item l) in
               let! status := lift (getitem tx_result "status") in
               if py_eq_int status 1
               then await_backend (write_precommit_state (JDict []))
               else await_backend (remove_precommit_state (JDict []))
           | _ => await_backend (remove_precommit_state (JDict []))
           end k st
      = (Raise e, st)).
Proof.
  destruct response as [ | b | n | bits | s | l | d];
    try (left; exists NonList; split; reflexivity).
  destruct l as [ | tx_result rest].
  { right. exists IndexError. split; reflexivity. }
  destruct tx_result as [ | b | n | bits | s | l | d];
    try (right; exists TypeError; split; reflexivity).
  simpl reply_shape_of. unfold bind, lift, first_item, getitem.
  destruct (dict_get d "status") as [status | ].
  - left. destruct (py_eq_int status 1).
    + exists SuccessStatusList. split; reflexivity.
    + exists FailureStatusList. split; reflexivity.
  - right. exists KeyError. split; reflexivity.
Qed.

(** What a submission that passes validation, with a clock reading that
    fits eight bytes, does: it takes the next block height, sends one
    execution request carrying it, and, when the answer has one of the
    three shapes, follows it with the one finalization of that shape. *)
Lemma icx_sendTransaction_accepted (request_params : list (string * json))
    (block_timestamp_us : Z) (response : json) (st : state) :
  JsonRpcMessageValidator_validate "icx_sendTransaction" request_params = Valid ->
  0 <= block_timestamp_us < 2 ^ 64 ->
  exists request later,
    block_height
      (snd (icx_sendTransaction request_params block_timestamp_us response st))
    = block_height st + 1 /\
    request_block_height request = Some (block_height st + 1) /\
    backend_calls
      (snd (icx_sendTransaction request_params block_timestamp_us response st))
    = backend_calls st ++ icx_send_transaction request :: later /\
    observed_heights later = [] /\
    (forall shape, reply_shape_of response = Some shape -> later = [finalization shape]).
Proof.
  intros Hvalid Hclock.
  destruct (to_bytes_8_big_Return _ Hclock) as (bytes & Hbytes).
  unfold icx_sendTransaction.
  erewrite bind_Return by (apply validate_Valid; exact Hvalid).
  erewrite bind_Return by reflexivity.
  erewrite bind_Return by (unfold lift; rewrite Hbytes; reflexivity).
  erewrite bind_Return by reflexivity.
  cbn [block_height tx_result_mapper backend_calls].
  set (request := make_request _ _ _ _).
  set (st1 := {| block_height := block_height st + 1;
                 tx_result_mapper := tx_result_mapper st;
                 backend_calls := backend_calls st ++ [icx_send_transaction request] |}).
  exists request.
  destruct (decision_cases response (fun _ => response_to_json response) st1)
    as [(shape & Hshape & ->) | (e & Hshape & ->)].
  - exists [finalization shape].
    destruct (finalize_then_store (finalization shape) response st1) as [Hh Hc].
    rewrite Hh, Hc. simpl. rewrite <- app_assoc. simpl.
    repeat split; try reflexivity.
    + by destruct shape.
    + intros shape'. rewrite Hshape. by intros [= <-].
  - exists []. simpl. repeat split; try reflexivity.
    intros shape. rewrite Hshape. discriminate.
Qed.

(** C1: a submission that reaches the backend, answered by a
    success-status list, a failure-status list or a non-list, has made
    exactly two backend calls when it returns or raises: the execution
    request and then one finalization, a commit for the success shape and
    a rollback for the other two. *)
Theorem one_finalization_per_submission (request_params : list (string * json))
    (block_timestamp_us : Z) (response : json) (shape : reply_shape) (st : state) :
  JsonRpcMessageValidator_validate "icx_sendTransaction" request_params = Valid ->
  0 <= block_timestamp_us < 2 ^ 64 ->
  reply_shape_of response = Some shape ->
  exists request,
    backend_calls
      (snd (icx_sendTransaction request_params block_timestamp_us response st))
    = backend_calls st ++ [icx_send_transaction request; finalization shape] /\
    finalization shape
    = match shape with
      | SuccessStatusList => write_precommit_state (JDict [])
      | FailureStatusList | NonList => remove_precommit_state (JDict [])
      end.
Proof.
  intros Hvalid Hclock Hshape.
  destruct (icx_sendTransaction_accepted request_params block_timestamp_us
              response st Hvalid Hclock)
    as (request & later & _ & _ & Hcalls & _ & Hlater).
  exists request. rewrite Hcalls, (Hlater shape Hshape). split; reflexivity.
Qed.

Lemma heights_from (h : Z) (n : nat) :
  (h + 1) :: map (fun i => h + 1 + Z.of_nat i) (seq 1 n)
  = map (fun i => h + Z.of_nat i) (seq 1 (S n)).
Proof.
  simpl. f_equal.
  rewrite <- (seq_shift n 1), map_map.
  apply map_ext. intros i. lia.
Qed.

Lemma observed_heights_app (calls more : list backend_call) :
  observed_heights (calls ++ more) = observed_heights calls ++ observed_heights more.
Proof. apply omap_app. Qed.

Lemma observed_heights_request (request : json) (h : Z) (later : list backend_call) :
  request_block_height request = Some h ->
  observed_heights (icx_send_transaction request :: later) = h :: observed_heights later.
Proof. intros Hh. unfold observed_heights. simpl. by rewrite Hh. Qed.

Lemma submit_all_heights (subs : list submission) (st : state) :
  Forall accepted subs ->
  block_height (submit_all subs st) = block_height st + Z.of_nat (length subs) /\
  observed_heights (backend_calls (submit_all subs st))
  = observed_heights (backend_calls st)
    ++ map (fun i => block_height st + Z.of_nat i) (seq 1 (length subs)).
Proof.
  intros Hall. revert st.
  induction Hall as [ | s subs [Hvalid Hclock] _ IH]; intros st.
  - simpl. split; [lia | by rewrite app_nil_r].
  - simpl submit_all.
    destruct (icx_sendTransaction_accepted (sub_params s) (sub_timestamp s)
                (sub_response s) st Hvalid Hclock)
      as (request & later & Hheight & Hrequest & Hcalls & Hlater & _).
    destruct (IH (snd (icx_sendTransaction (sub_params s) (sub_timestamp s)
                         (sub_response s) st))) as [IHheight IHcalls].
    rewrite IHheight, IHcalls, Hheight, Hcalls. split.
    + simpl length. lia.
    + rewrite observed_heights_app, (observed_heights_request _ _ _ Hrequest), Hlater.
      rewrite <- app_assoc. f_equal. simpl app.
      apply heights_from.
Qed.

(** C4: in a run of accepted submissions on a freshly started node the
    block heights handed to the backend are 1, 2, ..., one per
    submission, in order; no height occurs twice. *)
Theorem block_heights_count_up (subs : list submission) :
  Forall accepted subs ->
  observed_heights (backend_calls (submit_all subs (init_tbears module_state)))
  = map Z.of_nat (seq 1 (length subs)) /\
  NoDup (observed_heights
           (backend_calls (submit_all subs (init_tbears module_state)))).
Proof.
  intros Hall.
  destruct (submit_all_heights subs (init_tbears module_state) Hall) as [_ Hheights].
  simpl in Hheights.
  assert (Heq : observed_heights
                  (backend_calls (submit_all subs (init_tbears module_state)))
                = map Z.of_nat (seq 1 (length subs))).
  { rewrite Hheights. apply map_ext. intros i. lia. }
  split; [exact Heq | ].
  rewrite Heq. apply (NoDup_fmap_2 Z.of_nat), NoDup_seq.
Qed.

(** C8: a submission that fails validation raises the validation error
    and leaves the whole state as it was: block height, result cache and
    the record of backend calls. *)
Theorem rejected_submission_changes_nothing (request_params : list (string * json))
    (block_timestamp_us : Z) (response : json) (st : state) :
  JsonRpcMessageValidator_validate "icx_sendTransaction" request_params <> Valid ->
  exists code message,
    icx_sendTransaction request_params block_timestamp_us response st
    = (Raise (GenericJsonRpcServerError code message HTTP_BAD_REQUEST), st).
Proof.
  intros Hinvalid. unfold icx_sendTransaction, validate_jsonrpc_message.
  destruct (JsonRpcMessageValidator_validate "icx_sendTransaction" request_params)
    as [ | code message | repr]; [done | | ].
  - exists (JInt (- code)), (JStr message). reflexivity.
  - exists (JInt ServerError_code), (JStr repr). reflexivity.
Qed.

(** C7: [icx_getTransactionResult] returns the stored result when the
    parameters have a [txHash] that is a key of the cache, and raises the
    not-found error in every other case; it never raises anything else
    and changes no state. *)
Theorem getTransactionResult_found_or_not_found (request_params : list (string * json))
    (st : state) :
  icx_getTransactionResult request_params st
  = (match cached_result request_params st with
     | Some tx_result => Return tx_result
     | None => Raise not_found
     end, st) /\
  (dict_get request_params "txHash" = None ->
   icx_getTransactionResult request_params st = (Raise not_found, st)) /\
  (forall tx_hash m,
      dict_get request_params "txHash" = Some tx_hash ->
      tx_result_mapper st = Some m ->
      (forall k, hash_key tx_hash = Some k -> mapper m !! k = None) ->
      icx_getTransactionResult request_params st = (Raise not_found, st)) /\
  (forall tx_hash m k tx_result,
      dict_get request_params "txHash" = Some tx_hash ->
      tx_result_mapper st = Some m ->
      hash_key tx_hash = Some k ->
      mapper m !! k = Some tx_result ->
      icx_getTransactionResult request_params st = (Return tx_result, st)).
Proof.
  assert (Htotal : icx_getTransactionResult request_params st
                   = (match cached_result request_params st with
                      | Some tx_result => Return tx_result
                      | None => Raise not_found
                      end, st)).
  { unfold icx_getTransactionResult, cached_result, getitem_mapper. unfold_monad.
    unfold getitem, getitem_mapper. simpl.
    destruct (dict_get request_params "txHash") as [tx_hash | ]; simpl; [ | reflexivity].
    destruct (tx_result_mapper st) as [m | ]; simpl; [ | reflexivity].
    destruct (hash_key tx_hash) as [k | ]; simpl; [ | reflexivity].
    destruct (mapper m !! k); reflexivity. }
  split; [exact Htotal | ]. rewrite Htotal. unfold cached_result.
  repeat split.
  - intros ->. reflexivity.
  - intros tx_hash m -> -> Habsent. simpl.
    destruct (hash_key tx_hash) as [k | ]; simpl; [ | reflexivity].
    by rewrite (Habsent k).
  - intros tx_hash m k tx_result -> -> Hk Hstored. simpl.
    rewrite Hk. simpl. by rewrite Hstored.
Qed.

(** ** [dispatch] *)

(** A body that decodes to text which is not JSON is answered with the
    constant and status 400, whatever the text. *)
Lemma dispatch_parse_error (request_body text : string)
    (methods_dispatch : json -> rpc_response) :
  bytes_decode request_body = Some text ->
  json_loads text = None ->
  dispatch request_body methods_dispatch
  = Return {| body := JStr PARSE_ERROR_RESPONSE; status := 400 |}.
Proof. intros Hdecode Hloads. unfold dispatch. by rewrite Hdecode, Hloads. Qed.

(** A body that does not decode to text raises out of [dispatch]. *)
Lemma dispatch_undecodable (request_body : string)
    (methods_dispatch : json -> rpc_response) :
  bytes_decode request_body = None ->
  dispatch request_body methods_dispatch = Raise UnicodeDecodeError.
Proof. intros Hdecode. unfold dispatch. by rewrite Hdecode. Qed.

(** ** More on [TxResultMapper] *)

Lemma put_each_invariant (P : TxResultMapper -> Prop) (calls : list (json * json)) :
  (forall key value self,
      (key, value) ∈ calls -> P self -> P (snd (put key value self))) ->
  forall self, P self -> P (put_each calls self).
Proof.
  induction calls as [ | [key value] calls IH]; intros Hstep self Hself; [exact Hself | ].
  simpl. apply IH.
  - intros key' value' self' Hin. apply Hstep. by right.
  - apply Hstep; [by left | exact Hself].
Qed.

Lemma put_then_get_lookup (key value : json) (self self' : TxResultMapper) :
  put key value self = (Return tt, self') ->
  exists k, hash_key key = Some k /\ mapper self' !! k = Some value.
Proof.
  intros Hput.
  apply put_Return in Hput as (kk & Hkey & [[_ ->] | [_ (first & rest & k0 & _ & _ & _ & ->)]]);
    exists kk; simpl; by rewrite lookup_insert_eq.
Qed.

(** X1: a [put] that returns has stored its value: [get] of the same key
    answers it. *)
Theorem put_then_get (key value : json) (self self' : TxResultMapper) :
  put key value self = (Return tt, self') ->
  get key self' = Return value /\ getitem_mapper key self' = Return value.
Proof.
  intros Hput.
  apply put_Return in Hput as (kk & Hkey & [[_ ->] | [_ (first & rest & k0 & _ & _ & _ & ->)]]);
    unfold get, getitem_mapper; rewrite Hkey; simpl; by rewrite lookup_insert_eq.
Qed.


(** X3: whatever is put, returned or raised, a mapper that started empty
    never holds more than [limit_capacity + 1] entries (none at all when
    the capacity is negative). *)
Theorem len_at_most_capacity_plus_one (limit : Z) (calls : list (json * json)) :
  len (put_each calls (TxResultMapper_init limit)) <= Z.max 0 (limit + 1).
Proof.
  destruct (Z.le_gt_cases 0 (limit + 1)) as [Hnonneg | Hneg].
  - rewrite Z.max_r by exact Hnonneg.
    assert (Hinv : limit_capacity (put_each calls (TxResultMapper_init limit)) = limit /\
                   len (put_each calls (TxResultMapper_init limit)) <= limit + 1).
    { apply (put_each_invariant
               (fun self => limit_capacity self = limit /\ len self <= limit + 1)).
      - intros key value self _ [Hcap Hlen]. split.
        + by rewrite put_capacity.
        + rewrite <- Hcap. apply put_len_bound. by rewrite Hcap.
      - split; [reflexivity | ]. unfold len. simpl. rewrite map_size_empty. lia. }
    apply Hinv.
  - rewrite Z.max_l by lia.
    assert (Hinv : put_each calls (TxResultMapper_init limit) = TxResultMapper_init limit).
    { apply (put_each_invariant (fun self => self = TxResultMapper_init limit));
        [ | reflexivity].
      intros key value self _ ->. unfold put, check_limit, len. simpl.
      rewrite map_size_empty.
      destruct (Z.ltb_spec limit (Z.of_nat 0)); [reflexivity | lia]. }
    rewrite Hinv. unfold len. simpl. rewrite map_size_empty. lia.
Qed.

(** Any [put] with a hashable key keeps every key of the mapping
    logged. *)
Lemma put_logged (key value : json) (self : TxResultMapper) :
  is_Some (hash_key key) -> logged self -> logged (snd (put key value self)).
Proof.
  intros [kk Hkey] Hlogged. unfold put, check_limit.
  destruct (Z.ltb _ _).
  - destruct (key_list self) as [ | first rest] eqn:Hlog; [exact Hlogged | ].
    assert (Hrest : forall k, is_Some (mapper self !! k) -> hash_key first <> Some k ->
                              exists key', key' ∈ rest /\ hash_key key' = Some k).
    { intros k Hk Hfirst. destruct (Hlogged k Hk) as (key' & Hin & Hhash).
      rewrite Hlog in Hin. apply elem_of_cons in Hin as [-> | Hin]; [done | eauto]. }
    destruct (hash_key first) as [k0 | ] eqn:Hfirst.
    + destruct (mapper self !! k0) as [old | ] eqn:Hold; simpl.
      * rewrite Hkey. intros k Hk. simpl in Hk |- *.
        destruct (decide (k = kk)) as [-> | Hne].
        { exists key. split; [ | exact Hkey]. apply elem_of_app. right. by left. }
        rewrite lookup_insert_ne in Hk by done.
        destruct (decide (k = k0)) as [-> | Hne0].
        { rewrite lookup_delete_eq in Hk. by destruct Hk. }
        rewrite lookup_delete_ne in Hk by done.
        destruct (Hrest k Hk) as (key' & Hin & Hhash); [congruence | ].
        exists key'. split; [ | exact Hhash]. apply elem_of_app. by left.
      * intros k Hk. simpl in Hk |- *. apply Hrest; [exact Hk | ]. intros [= <-].
        rewrite Hold in Hk. by destruct Hk.
    + intros k Hk. simpl in Hk |- *. apply Hrest; [exact Hk | done].
  - simpl. rewrite Hkey. intros k Hk. simpl in Hk |- *.
    destruct (decide (k = kk)) as [-> | Hne].
    { exists key. split; [ | exact Hkey]. apply elem_of_app. right. by left. }
    rewrite lookup_insert_ne in Hk by done.
    destruct (Hlogged k Hk) as (key' & Hin & Hhash).
    exists key'. split; [ | exact Hhash]. apply elem_of_app. by left.
Qed.

Lemma put_hashable_log (key value : json) (self : TxResultMapper) :
  is_Some (hash_key key) ->
  Forall (fun key' => is_Some (hash_key key')) (key_list self) ->
  Forall (fun key' => is_Some (hash_key key')) (key_list (snd (put key value self))).
Proof.
  intros [kk Hkey] Hall. unfold put, check_limit.
  destruct (Z.ltb _ _).
  - destruct (key_list self) as [ | first rest] eqn:Hlog;
      [simpl; rewrite Hlog; constructor | ].
    apply Forall_cons in Hall as [[k0 Hfirst] Hrest]. rewrite Hfirst.
    destruct (mapper self !! k0); simpl; [ | exact Hrest].
    rewrite Hkey. simpl. apply Forall_app. split; [exact Hrest | ].
    constructor; [eauto | constructor].
  - simpl. rewrite Hkey. simpl. apply Forall_app. split; [exact Hall | ].
    constructor; [eauto | constructor].
Qed.

(** X4: on a mapper of non-negative capacity that started empty and has
    only been given hashable keys, a [put] either returns or raises
    [KeyError]; it never raises [IndexError] or [TypeError], whatever was
    put before and however those calls ended. *)
Theorem put_returns_or_KeyError (limit : Z) (calls : list (json * json))
    (key value : json) :
  0 <= limit ->
  Forall (fun call => is_Some (hash_key (fst call))) calls ->
  is_Some (hash_key key) ->
  fst (put key value (put_each calls (TxResultMapper_init limit))) = Return tt \/
  fst (put key value (put_each calls (TxResultMapper_init limit))) = Raise KeyError.
Proof.
  intros Hlimit Hcalls [kk Hkey].
  assert (Hinv : limit_capacity (put_each calls (TxResultMapper_init limit)) = limit /\
                 logged (put_each calls (TxResultMapper_init limit)) /\
                 Forall (fun key' => is_Some (hash_key key'))
                   (key_list (put_each calls (TxResultMapper_init limit)))).
  { apply (put_each_invariant
             (fun self => limit_capacity self = limit /\ logged self /\
                          Forall (fun key' => is_Some (hash_key key')) (key_list self))).
    - intros key' value' self Hin (Hcap & Hlogged & Hall).
      rewrite Forall_forall in Hcalls. pose proof (Hcalls _ Hin) as Hhash. simpl in Hhash.
      repeat split.
      + by rewrite put_capacity.
      + by apply put_logged.
      + by apply put_hashable_log.
    - repeat split; [ | constructor]. intros k Hk. simpl in Hk.
      rewrite lookup_empty in Hk. by destruct Hk. }
  destruct Hinv as (Hcap & Hlogged & Hall).
  set (self := put_each calls (TxResultMapper_init limit)) in *.
  unfold put, check_limit. rewrite Hcap.
  destruct (Z.ltb_spec limit (len self)) as [Hover | Hfits].
  - destruct (key_list self) as [ | first rest] eqn:Hlog.
    + exfalso.
      assert (Hsome : size (mapper self) <> 0%nat) by (unfold len in Hover; lia).
      apply map_size_ne_0_lookup_1 in Hsome as (k & Hk).
      destruct (Hlogged k Hk) as (key' & Hin & _). rewrite Hlog in Hin.
      by apply not_elem_of_nil in Hin.
    + apply Forall_cons in Hall as [[k0 Hfirst] _]. rewrite Hfirst.
      destruct (mapper self !! k0); simpl; [ | by right].
      rewrite Hkey. by left.
  - simpl. rewrite Hkey. by left.
Qed.

(** X5: putting one key again and again never evicts and never shortens
    the log: after [n] such calls on an empty mapper of capacity at least
    1 the mapping has one entry and the log has [n]. *)
Theorem repeated_key_grows_log (limit : Z) (key value : json) (n : nat) :
  1 <= limit ->
  is_Some (hash_key key) ->
  exists m,
    put_all (replicate (S n) (key, value)) (TxResultMapper_init limit) = (Return tt, m) /\
    len m = 1 /\
    length (key_list m) = S n.
Proof.
  intros Hlimit [kk Hkey].
  assert (Hgen : forall n self,
             limit_capacity self = limit -> len self <= 1 ->
             (forall k, is_Some (mapper self !! k) -> k = kk) ->
             exists m, put_all (replicate (S n) (key, value)) self = (Return tt, m) /\
                       len m = 1 /\
                       length (key_list m) = (length (key_list self) + S n)%nat).
  { clear n. intros n. induction n as [ | n IH]; intros self Hcap Hlen Honly.
    - simpl. unfold put, check_limit. rewrite Hcap.
      destruct (Z.ltb_spec limit (len self)) as [Hover | _]; [lia | ].
      simpl. rewrite Hkey. simpl. eexists. split; [reflexivity | ].
      unfold len in *. simpl. rewrite length_app, map_size_insert. simpl. split; [ | lia].
      destruct (mapper self !! kk) as [old | ] eqn:Hold; simpl; unfold id.
      + assert (size (mapper self) <> 0%nat)
          by (apply (map_size_ne_0_lookup_2 _ kk); eauto). lia.
      + destruct (decide (size (mapper self) = 0%nat)) as [-> | Hne]; [reflexivity | ].
        apply map_size_ne_0_lookup_1 in Hne as (k & Hk).
        rewrite (Honly k Hk), Hold in Hk. by destruct Hk.
    - change (replicate (S (S n)) (key, value))
        with ((key, value) :: replicate (S n) (key, value)).
      simpl put_all. unfold put at 1, check_limit. rewrite Hcap.
      destruct (Z.ltb_spec limit (len self)) as [Hover | _]; [lia | ].
      simpl. rewrite Hkey. simpl.
      destruct (IH {| limit_capacity := limit_capacity self;
                      mapper := <[kk := value]> (mapper self);
                      key_list := key_list self ++ [key] |}) as (m & Hrun & Hm & Hlog).
      + exact Hcap.
      + unfold len in *. simpl. rewrite map_size_insert.
        destruct (mapper self !! kk) as [old | ] eqn:Hold; simpl; unfold id; [lia | ].
        destruct (decide (size (mapper self) = 0%nat)) as [-> | Hne]; [lia | ].
        apply map_size_ne_0_lookup_1 in Hne as (k & Hk).
        rewrite (Honly k Hk), Hold in Hk. by destruct Hk.
      + simpl. intros k Hk. destruct (decide (k = kk)) as [-> | Hne]; [reflexivity | ].
        rewrite lookup_insert_ne in Hk by done. by apply Honly.
      + exists m. split; [exact Hrun | ]. split; [exact Hm | ].
        rewrite Hlog. simpl. rewrite length_app. simpl. lia. }
  destruct (Hgen n (TxResultMapper_init limit)) as (m & Hrun & Hm & Hlog).
  - reflexivity.
  - unfold len. simpl. rewrite map_size_empty. lia.
  - intros k Hk. simpl in Hk. rewrite lookup_empty in Hk. by destruct Hk.
  - exists m. repeat split; assumption.
Qed.

(** X6: a [put] with a hashable key that raises has stored nothing and
    removed nothing: the mapping is as before, the key is not logged, and
    the log has at most lost its head. *)
Theorem raising_put_stores_nothing (key value : json) (self self' : TxResultMapper)
    (e : exn) :
  is_Some (hash_key key) ->
  put key value self = (Raise e, self') ->
  mapper self' = mapper self /\
  (key_list self' = key_list self \/ key_list self' = tail (key_list self)).
Proof.
  intros [kk Hkey]. unfold put, check_limit.
  destruct (Z.ltb _ _).
  - destruct (key_list self) as [ | first rest] eqn:Hlog.
    { intros [= _ <-]. rewrite Hlog. auto. }
    destruct (hash_key first) as [k0 | ]; [ | intros [= _ <-]; auto].
    destruct (mapper self !! k0); [ | intros [= _ <-]; auto].
    simpl. rewrite Hkey. discriminate.
  - simpl. rewrite Hkey. discriminate.
Qed.

(** ** More on the handlers *)

Lemma bind_Return_inv {A B : Type} (c : M A) (k : A -> M B) (st st' : state) (b : B) :
  bind c k st = (Return b, st') ->
  exists a st1, c st = (Return a, st1) /\ k a st1 = (Return b, st').
Proof.
  unfold bind. destruct (c st) as [[a | e] st1]; [eauto | discriminate].
Qed.

Lemma lift_Return_inv {A : Type} (o : outcome A) (st st' : state) (a : A) :
  lift o st = (Return a, st') -> o = Return a /\ st' = st.
Proof. unfold lift. by intros [= -> ->]. Qed.

(** [response_to_json] returns only for a list whose first entry has a
    [txHash], and then the entry is in the cache under that hash. *)
Lemma response_to_json_Return (response : json) (st st' : state) (h : json) :
  response_to_json response st = (Return h, st') ->
  exists tx_result rest m' k,
    response = JList (tx_result :: rest) /\
    getitem tx_result "txHash" = Return h /\
    tx_result_mapper st' = Some m' /\
    hash_key h = Some k /\
    mapper m' !! k = Some tx_result.
Proof.
  unfold response_to_json. intros Hrun.
  assert (Hlist : exists l, response = JList l).
  { destruct response; eauto; exfalso.
    all: apply bind_Return_inv in Hrun as (code & st1 & _ & Hrun).
    all: apply bind_Return_inv in Hrun as (minus & st2 & _ & Hrun).
    all: apply bind_Return_inv in Hrun as (message & st3 & _ & Hrun).
    all: discriminate Hrun. }
  destruct Hlist as (l & ->).
  apply bind_Return_inv in Hrun as (tx_result & st1 & Hfirst & Hrun).
  apply lift_Return_inv in Hfirst as [Hfirst ->].
  apply bind_Return_inv in Hrun as (tx_hash & st2 & Hhash & Hrun).
  apply lift_Return_inv in Hhash as [Hhash ->].
  apply bind_Return_inv in Hrun as ([] & st3 & Hput & Hret).
  unfold ret in Hret. injection Hret as -> ->.
  destruct l as [ | first rest]; [discriminate | ]. injection Hfirst as ->.
  unfold mapper_put in Hput.
  destruct (tx_result_mapper st) as [m | ]; [ | discriminate].
  destruct (put h tx_result m) as [r m'] eqn:Hm. injection Hput as -> <-.
  destruct (put_then_get_lookup _ _ _ _ Hm) as (k & Hk & Hlookup).
  exists tx_result, rest, m', k. repeat split; assumption.
Qed.

(** X7: when a submission returns a hash, the backend's answer was a list
    whose first entry carries that hash and a status, and that entry is
    what [icx_getTransactionResult] returns for the hash from then on. *)
Theorem returned_hash_is_cached (request_params : list (string * json))
    (block_timestamp_us : Z) (response : json) (st st' : state) (h : json) :
  icx_sendTransaction request_params block_timestamp_us response st = (Return h, st') ->
  exists tx_result rest,
    response = JList (tx_result :: rest) /\
    getitem tx_result "txHash" = Return h /\
    (exists status, getitem tx_result "status" = Return status) /\
    forall query_params,
      dict_get query_params "txHash" = Some h ->
      icx_getTransactionResult query_params st' = (Return tx_result, st').
Proof.
  unfold icx_sendTransaction. intros Hrun.
  apply bind_Return_inv in Hrun as ([] & st1 & _ & Hrun).
  apply bind_Return_inv in Hrun as (height & st2 & _ & Hrun).
  apply bind_Return_inv in Hrun as (bytes & st3 & _ & Hrun).
  apply bind_Return_inv in Hrun as ([] & st4 & _ & Hrun).
  apply bind_Return_inv in Hrun as ([] & st5 & Hdecision & Hrun).
  apply response_to_json_Return in Hrun
    as (tx_result & rest & m' & k & -> & Hhash & Hmapper & Hk & Hlookup).
  exists tx_result, rest. repeat split; try assumption.
  - apply bind_Return_inv in Hdecision as (first & st6 & Hfirst & Hdecision).
    apply lift_Return_inv in Hfirst as [[= ->] ->].
    apply bind_Return_inv in Hdecision as (status & st7 & Hstatus & _).
    apply lift_Return_inv in Hstatus as [Hstatus _]. eauto.
  - intros query_params Hquery.
    unfold icx_getTransactionResult, try_except_raise, bind, lift, getitem,
      mapper_getitem, getitem_mapper.
    by rewrite Hquery, Hmapper, Hk, Hlookup.
Qed.

(** X8: an error answer of the backend, a dict with an integer [code]
    and a [message], is rolled back and raised with the code negated and
    the message as it came; the block height is used up and the cache is
    not touched. *)
Theorem backend_error_is_translated (request_params : list (string * json))
    (block_timestamp_us : Z) (d : list (string * json)) (code : Z) (message : json)
    (st : state) :
  JsonRpcMessageValidator_validate "icx_sendTransaction" request_params = Valid ->
  0 <= block_timestamp_us < 2 ^ 64 ->
  dict_get d "code" = Some (JInt code) ->
  dict_get d "message" = Some message ->
  exists request,
    icx_sendTransaction request_params block_timestamp_us (JDict d) st
    = (Raise (GenericJsonRpcServerError (JInt (- code)) message HTTP_BAD_REQUEST),
       {| block_height := block_height st + 1;
          tx_result_mapper := tx_result_mapper st;
          backend_calls := backend_calls st
                           ++ [icx_send_transaction request;
                               remove_precommit_state (JDict [])] |}).
Proof.
  intros Hvalid Hclock Hcode Hmessage.
  destruct (to_bytes_8_big_Return _ Hclock) as (bytes & Hbytes).
  unfold icx_sendTransaction.
  erewrite bind_Return by (apply validate_Valid; exact Hvalid).
  erewrite bind_Return by reflexivity.
  erewrite bind_Return by (unfold lift; rewrite Hbytes; reflexivity).
  erewrite bind_Return by reflexivity.
  erewrite bind_Return by reflexivity.
  cbn [block_height tx_result_mapper backend_calls].
  eexists. unfold response_to_json, bind, lift, raise, getitem.
  rewrite Hcode, Hmessage. simpl. rewrite <- app_assoc. reflexivity.
Qed.

Lemma icx_sendTransaction_overflow (request_params : list (string * json))
    (block_timestamp_us : Z) (response : json) (st : state) :
  JsonRpcMessageValidator_validate "icx_sendTransaction" request_params = Valid ->
  block_timestamp_us < 0 \/ 2 ^ 64 <= block_timestamp_us ->
  icx_sendTransaction request_params block_timestamp_us response st
  = (Raise OverflowError,
     {| block_height := block_height st + 1;
        tx_result_mapper := tx_result_mapper st;
        backend_calls := backend_calls st |}).
Proof.
  intros Hvalid Hclock. unfold icx_sendTransaction.
  erewrite bind_Return by (apply validate_Valid; exact Hvalid).
  erewrite bind_Return by reflexivity.
  erewrite bind_Raise; [reflexivity | ].
  unfold lift, to_bytes_8_big.
  destruct (Z.ltb_spec block_timestamp_us 0); [reflexivity | ].
  destruct (Z.leb_spec (2 ^ 64) block_timestamp_us); [reflexivity | lia].
Qed.

(** X9: a submission that passes validation at a clock reading that does
    not fit eight bytes raises [OverflowError] after it has taken a block
    height and before it has called the backend; the height is used up,
    so the next accepted submission hands the backend a height two above
    the old one. *)
Theorem clock_overflow_uses_up_a_height (s1 s2 : submission) (st : state) :
  JsonRpcMessageValidator_validate "icx_sendTransaction" (sub_params s1) = Valid ->
  sub_timestamp s1 < 0 \/ 2 ^ 64 <= sub_timestamp s1 ->
  accepted s2 ->
  icx_sendTransaction (sub_params s1) (sub_timestamp s1) (sub_response s1) st
  = (Raise OverflowError,
     {| block_height := block_height st + 1;
        tx_result_mapper := tx_result_mapper st;
        backend_calls := backend_calls st |}) /\
  observed_heights (backend_calls (submit_all [s1; s2] st))
  = observed_heights (backend_calls st) ++ [block_height st + 2].
Proof.
  intros Hvalid Hclock [Hvalid2 Hclock2].
  pose proof (icx_sendTransaction_overflow _ _ (sub_response s1) st Hvalid Hclock) as Hrun.
  split; [exact Hrun | ].
  simpl submit_all. rewrite Hrun. simpl snd.
  destruct (icx_sendTransaction_accepted (sub_params s2) (sub_timestamp s2)
              (sub_response s2)
              {| block_height := block_height st + 1;
                 tx_result_mapper := tx_result_mapper st;
                 backend_calls := backend_calls st |} Hvalid2 Hclock2)
    as (request & later & _ & Hrequest & Hcalls & Hlater & _).
  simpl in Hrequest, Hcalls. rewrite Hcalls.
  rewrite observed_heights_app, (observed_heights_request _ _ _ Hrequest), Hlater.
  do 2 f_equal. lia.
Qed.

(** One submission, whatever its parameters, clock and answer: the block
    height stays or grows by one, and the backend is handed either no
    height or the one new height. *)
Lemma icx_sendTransaction_step (request_params : list (string * json))
    (block_timestamp_us : Z) (response : json) (st : state) :
  let st' := snd (icx_sendTransaction request_params block_timestamp_us response st) in
  (block_height st' = block_height st \/ block_height st' = block_height st + 1) /\
  (observed_heights (backend_calls st') = observed_heights (backend_calls st) \/
   block_height st' = block_height st + 1 /\
   observed_heights (backend_calls st')
   = observed_heights (backend_calls st) ++ [block_height st + 1]).
Proof.
  destruct (JsonRpcMessageValidator_validate "icx_sendTransaction" request_params)
    as [ | code message | repr] eqn:Hvalid.
  - destruct (Z.lt_ge_cases block_timestamp_us 0) as [Hneg | Hnonneg];
      [ | destruct (Z.le_gt_cases (2 ^ 64) block_timestamp_us) as [Hbig | Hsmall]].
    + rewrite icx_sendTransaction_overflow by auto. simpl. auto.
    + rewrite icx_sendTransaction_overflow by auto. simpl. auto.
    + destruct (icx_sendTransaction_accepted request_params block_timestamp_us
                  response st Hvalid (conj Hnonneg Hsmall))
        as (request & later & Hheight & Hrequest & Hcalls & Hlater & _).
      simpl. rewrite Hheight, Hcalls. split; [auto | ]. right. split; [reflexivity | ].
      by rewrite observed_heights_app, (observed_heights_request _ _ _ Hrequest), Hlater.
  - unfold icx_sendTransaction, validate_jsonrpc_message. rewrite Hvalid. simpl. auto.
  - unfold icx_sendTransaction, validate_jsonrpc_message. rewrite Hvalid. simpl. auto.
Qed.

Lemma strictly_increasing_snoc (heights : list Z) (h : Z) :
  strictly_increasing heights ->
  Forall (fun x => x < h) heights ->
  strictly_increasing (heights ++ [h]).
Proof.
  intros Hsorted Hbelow i j hi hj Hij Hi Hj.
  destruct (decide (j < length heights)%nat) as [Hin | Hout].
  - rewrite lookup_app_l in Hi by lia. rewrite lookup_app_l in Hj by lia.
    eapply Hsorted; [exact Hij | exact Hi | exact Hj].
  - assert (Hlen : (j < length (heights ++ [h]))%nat) by (eapply lookup_lt_Some; eauto).
    rewrite length_app in Hlen. simpl in Hlen.
    assert (j = length heights) as -> by lia.
    rewrite lookup_app_l in Hi by lia.
    rewrite list_lookup_middle in Hj by reflexivity. injection Hj as <-.
    rewrite Forall_forall in Hbelow. apply Hbelow. eapply list_elem_of_lookup_2; eauto.
Qed.

(** X10: in every run of submissions on a freshly started node, accepted
    or refused, answered in any way and at any clock reading, the block
    heights handed to the backend grow strictly, lie between 1 and the
    current block height, and the block height is at most the number of
    submissions. *)
Theorem heights_grow_in_every_run (subs : list submission) :
  strictly_increasing
    (observed_heights (backend_calls (submit_all subs (init_tbears module_state)))) /\
  Forall (fun h => 1 <= h <= block_height (submit_all subs (init_tbears module_state)))
    (observed_heights (backend_calls (submit_all subs (init_tbears module_state)))) /\
  0 <= block_height (submit_all subs (init_tbears module_state))
    <= Z.of_nat (length subs).
Proof.
  assert (Hgen : forall subs st,
             0 <= block_height st ->
             strictly_increasing (observed_heights (backend_calls st)) ->
             Forall (fun h => 1 <= h <= block_height st)
               (observed_heights (backend_calls st)) ->
             strictly_increasing (observed_heights (backend_calls (submit_all subs st))) /\
             Forall (fun h => 1 <= h <= block_height (submit_all subs st))
               (observed_heights (backend_calls (submit_all subs st))) /\
             block_height st <= block_height (submit_all subs st)
               <= block_height st + Z.of_nat (length subs)).
  { clear subs. intros subs.
    induction subs as [ | s subs IH]; intros st Hnonneg Hsorted Hrange.
    - simpl. repeat split; try assumption; lia.
    - simpl submit_all.
      pose proof (icx_sendTransaction_step (sub_params s) (sub_timestamp s)
                    (sub_response s) st) as [Hheight Hcalls].
      cbv zeta in Hheight, Hcalls.
      set (st' := snd (icx_sendTransaction (sub_params s) (sub_timestamp s)
                         (sub_response s) st)) in *.
      destruct (IH st') as (IHsorted & IHrange & IHheight).
      + lia.
      + destruct Hcalls as [-> | [_ ->]]; [exact Hsorted | ].
        apply strictly_increasing_snoc; [exact Hsorted | ].
        eapply Forall_impl; [exact Hrange | ]. simpl. intros h Hh. lia.
      + destruct Hcalls as [-> | [Hnew ->]].
        * eapply Forall_impl; [exact Hrange | ]. simpl. intros h Hh. lia.
        * apply Forall_app. split.
          -- eapply Forall_impl; [exact Hrange | ]. simpl. intros h Hh. lia.
          -- constructor; [lia | constructor].
      + repeat split; try assumption; simpl length; lia. }
  destruct (Hgen subs (init_tbears module_state)) as (Hsorted & Hrange & Hheight).
  - simpl. lia.
  - intros i j hi hj _ Hi. simpl in Hi. discriminate.
  - constructor.
  - simpl in Hheight. repeat split; try assumption; lia.
Qed.

(** X11: the query handlers send a request only after validation has
    passed, except [icx_getTotalSupply], which does not validate: [icx_call]
    and [icx_getBalance] send one request and return the backend's answer
    as it is when the validator accepts the parameters, and send nothing
    and raise when it does not; [icx_getTotalSupply] always sends. *)
Theorem queries_validate_before_sending (request_params : list (string * json))
    (response : json) (st : state) :
  (JsonRpcMessageValidator_validate "icx_call" request_params = Valid <->
   icx_call request_params response st
   = (Return response, [make_query "icx_call" request_params])) /\
  (JsonRpcMessageValidator_validate "icx_call" request_params <> Valid <->
   exists code message,
     icx_call request_params response st
     = (Raise (GenericJsonRpcServerError code message HTTP_BAD_REQUEST), [])) /\
  (JsonRpcMessageValidator_validate "icx_getBalance" request_params = Valid <->
   icx_getBalance request_params response st
   = (Return response, [make_query "icx_getBalance" request_params])) /\
  (JsonRpcMessageValidator_validate "icx_getBalance" request_params <> Valid <->
   exists code message,
     icx_getBalance request_params response st
     = (Raise (GenericJsonRpcServerError code message HTTP_BAD_REQUEST), [])) /\
  icx_getTotalSupply request_params response
  = (Return response, [make_query "icx_getTotalSupply" request_params]).
Proof.
  unfold icx_call, icx_getBalance, icx_getTotalSupply, validate_jsonrpc_message.
  destruct (JsonRpcMessageValidator_validate "icx_call" request_params);
    destruct (JsonRpcMessageValidator_validate "icx_getBalance" request_params);
    simpl; repeat split; try done; eauto; try (intros (? & ? & ?); discriminate).
Qed.

(** ** More on values: dicts *)

Lemma dict_get_set_eq (d : list (string * json)) (key : string) (value : json) :
  dict_get (dict_set d key value) key = Some value.
Proof.
  induction d as [ | [k v] d IH]; simpl.
  - by rewrite String.eqb_refl.
  - destruct (String.eqb k key) eqn:Hk; simpl; by rewrite Hk.
Qed.

Lemma dict_get_set_ne (d : list (string * json)) (key other : string) (value : json) :
  other <> key -> dict_get (dict_set d key value) other = dict_get d other.
Proof.
  intros Hne. induction d as [ | [k v] d IH]; simpl.
  - destruct (String.eqb_spec key other); [congruence | reflexivity].
  - destruct (String.eqb_spec k key) as [-> | Hk]; simpl.
    + destruct (String.eqb_spec key other); [congruence | reflexivity].
    + destruct (String.eqb k other); [reflexivity | exact IH].
Qed.

Lemma dict_set_keys (d : list (string * json)) (key : string) (value : json) :
  is_Some (dict_get d key) -> map fst (dict_set d key value) = map fst d.
Proof.
  induction d as [ | [k v] d IH]; simpl; intros Hin.
  - by destruct Hin.
  - destruct (String.eqb k key); simpl; [reflexivity | ]. f_equal. by apply IH.
Qed.

Lemma dict_set_set (d : list (string * json)) (key : string) (value value' : json) :
  dict_set (dict_set d key value) key value' = dict_set d key value'.
Proof.
  induction d as [ | [k v] d IH]; simpl.
  - by rewrite String.eqb_refl.
  - destruct (String.eqb k key) eqn:Hk; simpl; rewrite Hk; [reflexivity | ].
    by rewrite IH.
Qed.

Lemma dict_get_map (f : json -> json) (d : list (string * json)) (key : string) :
  dict_get (map (fun kv => (fst kv, f (snd kv))) d) key = f <$> dict_get d key.
Proof.
  induction d as [ | [k v] d IH]; simpl; [reflexivity | ].
  destruct (String.eqb k key); [reflexivity | exact IH].
Qed.

(** ** More on [integers_to_hex] *)

Lemma integers_to_hex_twice (v : json) :
  integers_to_hex (integers_to_hex v) = integers_to_hex v.
Proof.
  rewrite (integers_to_hex_container_or_same v).
  destruct v; try reflexivity.
  - change (integers_to_hex (deep_hex (JList l)) = deep_hex (JList l)).
    rewrite integers_to_hex_container_or_same. simpl deep_hex at 1.
    change (deep_hex (deep_hex (JList l)) = deep_hex (JList l)).
    apply deep_hex_fixed, deep_hex_integer_free.
  - change (integers_to_hex (deep_hex (JDict d)) = deep_hex (JDict d)).
    rewrite integers_to_hex_container_or_same. simpl deep_hex at 1.
    change (deep_hex (deep_hex (JDict d)) = deep_hex (JDict d)).
    apply deep_hex_fixed, deep_hex_integer_free.
Qed.

(** X12: the rewriting keeps the keys of a dict and their order, and
    reading a member after the rewriting gives the rewritten member: a
    key that was missing is still missing ([KeyError]). *)
Theorem rewriting_commutes_with_lookup (d : list (string * json)) (key : string) :
  (exists d', integers_to_hex (JDict d) = JDict d' /\ map fst d' = map fst d) /\
  getitem (integers_to_hex (JDict d)) key
  = match getitem (JDict d) key with
    | Return v => Return (deep_hex v)
    | Raise e => Raise e
    end.
Proof.
  rewrite integers_to_hex_dict. split.
  - eexists. split; [reflexivity | ]. rewrite map_map. by apply map_ext.
  - unfold getitem. rewrite (dict_get_map deep_hex).
    by destruct (dict_get d key).
Qed.

(** X13: an integer member of a list, at any place, becomes a string:
    ['0x'] for a non-negative and ['-0x'] for a negative integer,
    followed by lowercase hex digits that denote its magnitude; the
    members around it are rewritten on their own. *)
Theorem integer_member_becomes_hex_string (before after : list json) (n : Z) :
  exists digits,
    integers_to_hex (JList (before ++ JInt n :: after))
    = JList (map deep_hex before
             ++ JStr ((if Z.ltb n 0 then "-0x" else "0x") +:+ digits)
             :: map deep_hex after) /\
    all_lower_hex digits = true /\
    hex_value digits 0 = Z.abs n.
Proof.
  destruct (hex_sound n) as (digits & Hhex & Hlower & Hvalue).
  exists digits. split; [ | by split].
  rewrite integers_to_hex_list, map_app. simpl. by rewrite Hhex.
Qed.

(** X14: a value that holds no integer and no boolean, at any depth,
    comes back from the rewriting as it went in. *)
Theorem integer_free_value_unchanged (v : json) :
  integer_free v = true -> integers_to_hex v = v.
Proof.
  intros Hfree. rewrite integers_to_hex_container_or_same.
  destruct v; try reflexivity; by apply deep_hex_fixed.
Qed.

(** ** More on [dispatch] *)

(** X15: for a request object with a [method] whose [params] are an
    object or missing, the request handed on to [methods.dispatch] has
    the method under [params['method']], replacing a parameter of that
    name if the client sent one; every other parameter and every other
    member of the request is as the client sent it. *)
Theorem method_is_added_to_params (d : list (string * json)) (method : json)
    (p : list (string * json)) :
  dict_get d "method" = Some method ->
  dict_get d "params" = Some (JDict p) \/ (dict_get d "params" = None /\ p = []) ->
  exists d' p',
    add_method_to_params (JDict d) = Return (JDict d') /\
    dict_get d' "params" = Some (JDict p') /\
    dict_get p' "method" = Some method /\
    (forall k, k <> "method" -> dict_get p' k = dict_get p k) /\
    (forall k, k <> "params" -> dict_get d' k = dict_get d k).
Proof.
  intros Hmethod Hparams. unfold add_method_to_params. rewrite Hmethod.
  assert (Hdefault : default (JDict []) (dict_get d "params") = JDict p).
  { destruct Hparams as [-> | [-> ->]]; reflexivity. }
  rewrite Hdefault.
  eexists. exists (dict_set p "method" method). split; [reflexivity | ].
  repeat split.
  - apply dict_get_set_eq.
  - apply dict_get_set_eq.
  - intros k Hk. by apply dict_get_set_ne.
  - intros k Hk. rewrite !dict_get_set_ne by done. reflexivity.
Qed.


(** X17: the rewriting of a response touches the [result] member only:
    the members keep their names and order, every other member keeps its
    value, [result] becomes its [integers_to_hex], and rewriting a
    response twice is rewriting it once.  A response without [result], an
    error, is left as it is. *)
Theorem only_result_is_rewritten (res : list (string * json)) :
  map fst (result_to_hex res) = map fst res /\
  (forall k, dict_get (result_to_hex res) k
             = if String.eqb k "result" then integers_to_hex <$> dict_get res k
               else dict_get res k) /\
  result_to_hex (result_to_hex res) = result_to_hex res /\
  (dict_get res "result" = None -> result_to_hex res = res).
Proof.
  unfold result_to_hex at 1 2 4.
  destruct (dict_get res "result") as [result | ] eqn:Hresult.
  - assert (Hsame : is_dict_list_int result = false -> integers_to_hex result = result)
      by (destruct result; done).
    repeat split.
    + destruct (is_dict_list_int result); [ | reflexivity].
      apply dict_set_keys. rewrite Hresult. eauto.
    + intros k. destruct (String.eqb_spec k "result") as [-> | Hk].
      * destruct (is_dict_list_int result) eqn:Hkind.
        -- by rewrite dict_get_set_eq, Hresult.
        -- rewrite Hresult. simpl. by rewrite Hsame.
      * destruct (is_dict_list_int result); [ | reflexivity].
        by apply dict_get_set_ne.
    + destruct (is_dict_list_int result) eqn:Hkind.
      * unfold result_to_hex. rewrite dict_get_set_eq.
        destruct (is_dict_list_int (integers_to_hex result)).
        -- by rewrite integers_to_hex_twice, dict_set_set, Hresult, Hkind.
        -- by rewrite Hresult, Hkind.
      * unfold result_to_hex. by rewrite Hresult, Hkind.
    + discriminate.
  - repeat split.
    + intros k. destruct (String.eqb_spec k "result") as [-> | Hk]; [ | reflexivity].
      by rewrite Hresult.
    + unfold result_to_hex. by rewrite Hresult.
Qed.

(** ** [load_config] *)

Lemma fill_defaults_dict (defaults d : list (string * json)) :
  exists d',
    fill_defaults defaults (JDict d) = Return (JDict d') /\
    forall k, dict_get d' k
              = match dict_get d k with
                | Some v => Some v
                | None => dict_get defaults k
                end.
Proof.
  revert d. induction defaults as [ | [key value] defaults IH]; intros d.
  - exists d. split; [reflexivity | ]. intros k. by destruct (dict_get d k).
  - simpl fill_defaults. case_bool_decide as Hin.
    + destruct (IH d) as (d' & Hrun & Hget). exists d'. split; [exact Hrun | ].
      intros k. rewrite Hget. destruct (dict_get d k) eqn:Hk; [reflexivity | ].
      simpl. destruct (String.eqb_spec key k) as [-> | Hne]; [ | reflexivity].
      rewrite Hk in Hin. by destruct Hin.
    + destruct (IH (dict_set d key value)) as (d' & Hrun & Hget).
      exists d'. split; [exact Hrun | ].
      intros k. rewrite Hget. simpl.
      destruct (String.eqb_spec key k) as [-> | Hne].
      * rewrite dict_get_set_eq.
        destruct (dict_get d k) eqn:Hk; [ | reflexivity].
        exfalso. apply Hin. eauto.
      * rewrite dict_get_set_ne by congruence. reflexivity.
Qed.

(** X18: for a configuration file that holds a JSON object, what the
    file gives is kept as it is, a partly filled nested object too, and
    every key of the defaults that the file lacks is added with its
    default value; so [from], [port], [scoreRoot], [dbRoot], [accounts]
    and [log] are always there, and loading fills nothing more a second
    time. *)
Theorem file_values_win_over_defaults (bytes text : string) (d : list (string * json)) :
  bytes_decode bytes = Some text ->
  json_loads text = Some (JDict d) ->
  exists d',
    load_config (Some bytes) = Loaded (JDict d') /\
    (forall k, dict_get d' k
               = match dict_get d k with
                 | Some v => Some v
                 | None => dict_get default_conf_items k
                 end) /\
    Forall (fun k => is_Some (dict_get d' k))
      ["from"; "port"; "scoreRoot"; "dbRoot"; "accounts"; "log"] /\
    fill_defaults default_conf_items (JDict d') = Return (JDict d').
Proof.
  intros Hdecode Hloads. unfold load_config. rewrite Hdecode, Hloads.
  destruct (fill_defaults_dict default_conf_items d) as (d' & Hrun & Hget).
  exists d'. rewrite Hrun. split; [reflexivity | ]. split; [exact Hget | ].
  assert (Hall : Forall (fun k => is_Some (dict_get d' k))
                   ["from"; "port"; "scoreRoot"; "dbRoot"; "accounts"; "log"]).
  { repeat constructor; rewrite Hget;
      match goal with |- is_Some match dict_get d ?k with _ => _ end =>
        destruct (dict_get d k); simpl; eauto end. }
  split; [exact Hall | ].
  assert (Hstable : forall defaults,
             Forall (fun kv => is_Some (dict_get d' (fst kv))) defaults ->
             fill_defaults defaults (JDict d') = Return (JDict d')).
  { intros defaults. induction defaults as [ | [key value] defaults IH]; intros Hdefaults.
    - reflexivity.
    - apply Forall_cons in Hdefaults as [Hkey Hrest]. simpl in Hkey. simpl.
      rewrite bool_decide_eq_true_2 by exact Hkey. by apply IH. }
  apply Hstable.
  repeat constructor; simpl; rewrite Hget;
    match goal with |- is_Some match dict_get d ?k with _ => _ end =>
      destruct (dict_get d k); simpl; eauto end.
Qed.

(** X19: only an unreadable file is forgiven: then the defaults are the
    configuration.  A file that does not decode, that is not JSON, or
    that holds a number, a boolean or null makes [load_config] raise. *)
Theorem unusable_config_file_raises (bytes : string) :
  load_config None = Loaded default_conf /\
  (bytes_decode bytes = None ->
   load_config (Some bytes) = LoadRaises UnicodeDecodeError) /\
  (forall text, bytes_decode bytes = Some text -> json_loads text = None ->
                load_config (Some bytes) = LoadJSONDecodeError) /\
  (forall text conf,
      bytes_decode bytes = Some text -> json_loads text = Some conf ->
      match conf with JDict _ | JList _ | JStr _ => False | _ => True end ->
      load_config (Some bytes) = LoadRaises TypeError).
Proof.
  unfold load_config. repeat split.
  - by intros ->.
  - by intros text -> ->.
  - intros text conf -> -> Hscalar. destruct conf; done.
Qed.

(** ** [tbears_cli.main] *)

(** X20: [init] is reached by exactly the three words [init], project,
    class, the class name title-cased; [run] by [run] followed by at
    least one more word, which it ignores; every other command line,
    [run] alone among them, prints the help and exits with
    [COMMAND_IS_WRONG]. *)
Theorem main_dispatches_on_words (title : string -> string) (command : list string) :
  (forall project score_class,
      main title command = Exit_init project score_class <->
      exists raw, command = ["init"; project; raw] /\ score_class = title raw) /\
  (main title command = Exit_run <->
   exists word rest, command = "run" :: word :: rest) /\
  ((length command < 2)%nat -> main title command = Help_COMMAND_IS_WRONG).
Proof.
  unfold main.
  destruct command as [ | w0 [ | w1 [ | w2 [ | w3 rest]]]]; simpl;
    try destruct (String.eqb_spec w0 "init") as [-> | Hinit]; simpl;
    try destruct (String.eqb_spec w0 "run") as [-> | Hrun]; simpl;
    repeat split; intros;
    repeat match goal with
           | Hex : exists _, _ |- _ => destruct Hex
           | Hand : _ /\ _ |- _ => destruct Hand
           end;
    simplify_eq; eauto; lia.
Qed.

(** ** The execution request and the order of commit and caching *)

(** X21: the execution request of an accepted submission holds one
    transaction with the client's parameters and, under [txHash], the
    hash of the parameters as the client sent them, in place of a
    [txHash] the client may have sent; its block carries the new height,
    the clock reading and the hash of the reading's eight bytes. *)
Theorem execution_request_envelope (request_params : list (string * json))
    (block_timestamp_us : Z) (response : json) (st : state) :
  JsonRpcMessageValidator_validate "icx_sendTransaction" request_params = Valid ->
  0 <= block_timestamp_us < 2 ^ 64 ->
  exists bytes params' later,
    to_bytes_8_big block_timestamp_us = Return bytes /\
    backend_calls
      (snd (icx_sendTransaction request_params block_timestamp_us response st))
    = backend_calls st
      ++ icx_send_transaction
           (JDict [("transactions",
                    JList [JDict [("method", JStr "icx_sendTransaction");
                                  ("params", JDict params')]]);
                   ("block",
                    JDict [("blockHeight", JInt (block_height st + 1));
                           ("blockHash", JStr (create_hash bytes));
                           ("timestamp", JInt block_timestamp_us)])])
         :: later /\
    dict_get params' "txHash"
    = Some (JStr (create_hash (json_dumps (JDict request_params)))) /\
    (forall k, k <> "txHash" -> dict_get params' k = dict_get request_params k).
Proof.
  intros Hvalid Hclock.
  destruct (to_bytes_8_big_Return _ Hclock) as (bytes & Hbytes).
  exists bytes,
    (dict_set request_params "txHash"
       (JStr (create_hash (json_dumps (JDict request_params))))).
  unfold icx_sendTransaction.
  erewrite bind_Return by (apply validate_Valid; exact Hvalid).
  erewrite bind_Return by reflexivity.
  erewrite bind_Return by (unfold lift; rewrite Hbytes; reflexivity).
  erewrite bind_Return by reflexivity.
  cbn [block_height tx_result_mapper backend_calls].
  set (st1 := {| block_height := block_height st + 1;
                 tx_result_mapper := tx_result_mapper st;
                 backend_calls := _ |}).
  destruct (decision_cases response (fun _ => response_to_json response) st1)
    as [(shape & _ & ->) | (e & _ & ->)].
  - exists [finalization shape].
    destruct (finalize_then_store (finalization shape) response st1) as [_ Hc].
    rewrite Hc. simpl. rewrite <- app_assoc. simpl.
    repeat split; try reflexivity.
    + exact Hbytes.
    + apply dict_get_set_eq.
    + intros k Hk. by apply dict_get_set_ne.
  - exists []. simpl. repeat split; try reflexivity.
    + exact Hbytes.
    + apply dict_get_set_eq.
    + intros k Hk. by apply dict_get_set_ne.
Qed.

(** X22: the commit or rollback comes before the caching: when the
    backend answers with a list and the [put] of its first entry raises,
    the handler raises that exception after the execution request and the
    finalization have both been made; nothing is stored for the
    transaction. *)
Theorem finalization_precedes_caching (request_params : list (string * json))
    (block_timestamp_us : Z) (tx_result status tx_hash : json) (rest : list json)
    (st : state) (m m' : TxResultMapper) (e : exn) :
  JsonRpcMessageValidator_validate "icx_sendTransaction" request_params = Valid ->
  0 <= block_timestamp_us < 2 ^ 64 ->
  getitem tx_result "status" = Return status ->
  getitem tx_result "txHash" = Return tx_hash ->
  tx_result_mapper st = Some m ->
  put tx_hash tx_result m = (Raise e, m') ->
  exists request,
    icx_sendTransaction request_params block_timestamp_us (JList (tx_result :: rest)) st
    = (Raise e,
       {| block_height := block_height st + 1;
          tx_result_mapper := Some m';
          backend_calls :=
            backend_calls st
            ++ [icx_send_transaction request;
                if py_eq_int status 1
                then write_precommit_state (JDict [])
                else remove_precommit_state (JDict [])] |}).
Proof.
  intros Hvalid Hclock Hstatus Hhash Hmapper Hput.
  destruct (to_bytes_8_big_Return _ Hclock) as (bytes & Hbytes).
  unfold icx_sendTransaction.
  erewrite bind_Return by (apply validate_Valid; exact Hvalid).
  erewrite bind_Return by reflexivity.
  erewrite bind_Return by (unfold lift; rewrite Hbytes; reflexivity).
  erewrite bind_Return by reflexivity.
  cbn [block_height tx_result_mapper backend_calls].
  eexists.
  unfold bind, lift, first_item, response_to_json, mapper_put, await_backend, ret.
  cbn -[put getitem py_eq_int]. rewrite Hstatus.
  destruct (py_eq_int status 1); cbn -[put getitem]; rewrite Hhash;
    cbn -[put getitem]; rewrite Hmapper; unfold bind; cbn -[put]; rewrite Hput; cbn;
    rewrite <- app_assoc; reflexivity.
Qed.

End Node.

(** * The model run on concrete requests *)

(** C2: on a mapper of capacity 1000, 1001 calls of [put] with distinct
    keys all return and leave 1001 entries in the mapping. *)
Theorem default_capacity_exceeded :
  fst (put_all py_hash (numbered_puts 0 1001) TxResultMapper_default) = Return tt /\
  len (snd (put_all py_hash (numbered_puts 0 1001) TxResultMapper_default)) = 1001.
Proof. split; vm_compute; reflexivity. Qed.

(** C10: on a mapper of capacity 1000, after [put('0x0', None)] and the
    1002 calls with keys [hex(0)] .. [hex(1001)], which all return, the
    call with the new key [hex(1002)] raises [KeyError]: the head of the
    log is the second entry for ['0x0'], a key already evicted. *)
Theorem put_raises_on_logged_duplicate :
  fst (put_all py_hash ((JStr "0x0", JNull) :: numbered_puts 0 1002)
         TxResultMapper_default) = Return tt /\
  fst (put py_hash (JStr (hex 1002)) (JInt 1002)
         (snd (put_all py_hash ((JStr "0x0", JNull) :: numbered_puts 0 1002)
                 TxResultMapper_default))) = Raise KeyError.
Proof. split; vm_compute; reflexivity. Qed.

(** C5: a result that is a bare integer goes through the rewriting
    unchanged, at every integer. *)
Theorem bare_integer_result_kept (n : Z) (id : json) :
  integers_to_hex (JInt n) = JInt n /\
  result_to_hex [("jsonrpc", JStr "2.0"); ("result", JInt n); ("id", id)]
  = [("jsonrpc", JStr "2.0"); ("result", JInt n); ("id", id)] /\
  dispatch ascii_decode json_read
    ("{" +:+ quoted "jsonrpc" +:+ ": " +:+ quoted "2.0" +:+ ", "
     +:+ quoted "method" +:+ ": " +:+ quoted "icx_getBalance" +:+ ", "
     +:+ quoted "params" +:+ ": {" +:+ quoted "address" +:+ ": " +:+ quoted "hxA"
     +:+ "}, " +:+ quoted "id" +:+ ": 1}")
    (fun _ => {| members := [("jsonrpc", JStr "2.0"); ("result", JInt 5);
                             ("id", JInt 1)];
                 http_status := 200 |})
  = Return {| body := JDict [("jsonrpc", JStr "2.0"); ("result", JInt 5);
                             ("id", JInt 1)];
              status := 200 |}.
Proof. repeat split; vm_compute; reflexivity. Qed.

(** A result that is a dict is rewritten on its way out. *)
Example dict_result_rewritten :
  dispatch ascii_decode json_read
    ("{" +:+ quoted "jsonrpc" +:+ ": " +:+ quoted "2.0" +:+ ", "
     +:+ quoted "method" +:+ ": " +:+ quoted "icx_getTransactionResult" +:+ ", "
     +:+ quoted "params" +:+ ": {" +:+ quoted "txHash" +:+ ": " +:+ quoted "0xabc"
     +:+ "}, " +:+ quoted "id" +:+ ": 1}")
    (fun _ => {| members := [("jsonrpc", JStr "2.0");
                             ("result", JDict [("txHash", JStr "0xabc");
                                               ("status", JInt 1)]);
                             ("id", JInt 1)];
                 http_status := 200 |})
  = Return {| body := JDict [("jsonrpc", JStr "2.0");
                             ("result", JDict [("txHash", JStr "0xabc");
                                               ("status", JStr "0x1")]);
                             ("id", JInt 1)];
              status := 200 |}.
Proof. vm_compute. reflexivity. Qed.

(** C6: the body [{] is answered with status 400 and the constant; the
    constant, read as JSON, has the string ["null"] as its [id], not
    null.  A body that is not UTF-8 is not answered at all: decoding it
    raises out of [dispatch]. *)
Theorem parse_error_envelope_id_is_a_string (methods_dispatch : json -> rpc_response) :
  dispatch ascii_decode json_read "{" methods_dispatch
  = Return {| body := JStr PARSE_ERROR_RESPONSE; status := 400 |} /\
  json_read PARSE_ERROR_RESPONSE
  = Some (JDict [("jsonrpc", JStr "2.0");
                 ("error", JDict [("code", JInt (-32700));
                                  ("message", JStr "Parse error")]);
                 ("id", JStr "null")]) /\
  dispatch ascii_decode json_read (String "255" "") methods_dispatch
  = Raise UnicodeDecodeError.
Proof. repeat split; vm_compute; reflexivity. Qed.


(** C3, the specification's rule refuted: on a mapper of capacity 1000,
    after [put] of ['a'], ['b'], ['a'] again and 999 further keys, the
    next [put] evicts ['a'], the head of the log, although by most recent
    insertion ['b'] is the oldest surviving key. *)
Lemma eviction_ignores_reinsertion :
  ~ evicts_oldest_by_most_recent_insertion py_hash 1000
      ((JStr "a", JNull) :: (JStr "b", JNull) :: (JStr "a", JNull)
         :: numbered_puts 0 999)
      (JStr "d") JNull.
Proof.
  intros Hclaim. red in Hclaim.
  assert (Ha : KStr "a" = KStr "b"); [ | discriminate Ha].
  apply Hclaim.
  - vm_compute; reflexivity.
  - vm_compute; reflexivity.
  - vm_compute; reflexivity.
  - vm_compute; reflexivity.
  - split; [exists JNull | ]; vm_compute; reflexivity.
Qed.

(** The amended rule at work on a mapper of capacity 2: after [put] of
    ['a'], ['b'], ['a'], ['c'] the call [put('d')] removes ['a']. *)
Lemma put_evicts_head_of_log_witness :
  exists (e : nat) (first : json) (k0 : pykey),
    map fst [(JStr "a", JNull); (JStr "b", JNull); (JStr "a", JNull); (JStr "c", JNull)]
      !! e = Some first /\
    key_list (snd (put_all py_hash
                     [(JStr "a", JNull); (JStr "b", JNull); (JStr "a", JNull);
                      (JStr "c", JNull)] (TxResultMapper_init 2)))
    = drop e (map fst [(JStr "a", JNull); (JStr "b", JNull); (JStr "a", JNull);
                       (JStr "c", JNull)]) /\
    py_hash first = Some k0 /\
    (is_Some (mapper (snd (put_all py_hash
                             [(JStr "a", JNull); (JStr "b", JNull); (JStr "a", JNull);
                              (JStr "c", JNull)] (TxResultMapper_init 2))) !! k0) ->
     put py_hash (JStr "d") JNull
       (snd (put_all py_hash
               [(JStr "a", JNull); (JStr "b", JNull); (JStr "a", JNull);
                (JStr "c", JNull)] (TxResultMapper_init 2)))
     = (Return tt,
        {| limit_capacity := 2;
           mapper := <[KStr "d" := JNull]>
                       (delete k0
                          (mapper (snd (put_all py_hash
                                          [(JStr "a", JNull); (JStr "b", JNull);
                                           (JStr "a", JNull); (JStr "c", JNull)]
                                          (TxResultMapper_init 2)))));
           key_list := drop (S e)
                         (map fst [(JStr "a", JNull); (JStr "b", JNull);
                                   (JStr "a", JNull); (JStr "c", JNull)])
                       ++ [JStr "d"] |})).
Proof.
  apply (put_evicts_head_of_log py_hash 2
           [(JStr "a", JNull); (JStr "b", JNull); (JStr "a", JNull); (JStr "c", JNull)]
           _ (JStr "d") JNull (KStr "d")).
  - lia.
  - reflexivity.
  - reflexivity.
  - reflexivity.
Defined.

(** A transfer answered with a success status: the execution request,
    then one commit. *)
Lemma one_finalization_per_submission_witness :
  exists request,
    backend_calls
      (snd (icx_sendTransaction py_hash sample_validate sample_dumps sample_digest
              sample_ServerError_code
              [("from", JStr "hxA"); ("to", JStr "hxB"); ("value", JStr "0x10")]
              1541203200000000
              (JList [JDict [("txHash", JStr "0xabc"); ("status", JInt 1)]])
              (init_tbears module_state)))
    = backend_calls (init_tbears (K:=pykey) module_state)
      ++ [icx_send_transaction request; finalization SuccessStatusList] /\
    finalization SuccessStatusList = write_precommit_state (JDict []).
Proof.
  apply (one_finalization_per_submission py_hash sample_validate sample_dumps
           sample_digest sample_ServerError_code
           [("from", JStr "hxA"); ("to", JStr "hxB"); ("value", JStr "0x10")]
           1541203200000000
           (JList [JDict [("txHash", JStr "0xabc"); ("status", JInt 1)]])
           SuccessStatusList (init_tbears module_state)).
  - reflexivity.
  - lia.
  - reflexivity.
Defined.

(** Three accepted submissions, answered with a success, a failure
    status and an error dict: heights 1, 2, 3. *)
Lemma block_heights_count_up_witness :
  observed_heights
    (backend_calls
       (submit_all py_hash sample_validate sample_dumps sample_digest
          sample_ServerError_code
          [{| sub_params := [("from", JStr "hxA"); ("to", JStr "hxB")];
              sub_timestamp := 1541203200000000;
              sub_response := JList [JDict [("txHash", JStr "0x1"); ("status", JInt 1)]] |};
           {| sub_params := [("from", JStr "hxB"); ("to", JStr "hxA")];
              sub_timestamp := 1541203200000001;
              sub_response := JList [JDict [("txHash", JStr "0x2"); ("status", JInt 0)]] |};
           {| sub_params := [("from", JStr "hxA"); ("to", JStr "hxC")];
              sub_timestamp := 1541203200000002;
              sub_response := JDict [("code", JInt 100);
                                     ("message", JStr "insufficient balance")] |}]
          (init_tbears (K:=pykey) module_state)))
  = map Z.of_nat (seq 1 3) /\
  NoDup (observed_heights
           (backend_calls
              (submit_all py_hash sample_validate sample_dumps sample_digest
                 sample_ServerError_code
                 [{| sub_params := [("from", JStr "hxA"); ("to", JStr "hxB")];
                     sub_timestamp := 1541203200000000;
                     sub_response :=
                       JList [JDict [("txHash", JStr "0x1"); ("status", JInt 1)]] |};
                  {| sub_params := [("from", JStr "hxB"); ("to", JStr "hxA")];
                     sub_timestamp := 1541203200000001;
                     sub_response :=
                       JList [JDict [("txHash", JStr "0x2"); ("status", JInt 0)]] |};
                  {| sub_params := [("from", JStr "hxA"); ("to", JStr "hxC")];
                     sub_timestamp := 1541203200000002;
                     sub_response := JDict [("code", JInt 100);
                                            ("message", JStr "insufficient balance")] |}]
                 (init_tbears (K:=pykey) module_state)))).
Proof.
  apply (block_heights_count_up py_hash sample_validate sample_dumps sample_digest
           sample_ServerError_code).
  repeat constructor; simpl; lia.
Defined.

(** A transfer without a target is refused and nothing changes. *)
Lemma rejected_submission_changes_nothing_witness :
  exists code message,
    icx_sendTransaction py_hash sample_validate sample_dumps sample_digest
      sample_ServerError_code
      [("from", JStr "hxA"); ("value", JStr "0x10")]
      1541203200000000
      (JList [JDict [("txHash", JStr "0xabc"); ("status", JInt 1)]])
      (init_tbears module_state)
    = (Raise (GenericJsonRpcServerError code message HTTP_BAD_REQUEST),
       init_tbears (K:=pykey) module_state).
Proof.
  apply (rejected_submission_changes_nothing py_hash sample_validate sample_dumps
           sample_digest sample_ServerError_code).
  simpl. discriminate.
Defined.

(** A cache holding one result: the stored hash is answered with the
    stored result. *)
Lemma getTransactionResult_found_or_not_found_witness :
  icx_getTransactionResult py_hash sample_InvalidParams_code
    [("txHash", JStr "0xabc")]
    {| block_height := 1;
       tx_result_mapper :=
         Some {| limit_capacity := 1000;
                 mapper := {[ KStr "0xabc" :=
                                JDict [("txHash", JStr "0xabc"); ("status", JInt 1)] ]};
                 key_list := [JStr "0xabc"] |};
       backend_calls := [] |}
  = (Return (JDict [("txHash", JStr "0xabc"); ("status", JInt 1)]),
     {| block_height := 1;
        tx_result_mapper :=
          Some {| limit_capacity := 1000;
                  mapper := {[ KStr "0xabc" :=
                                 JDict [("txHash", JStr "0xabc"); ("status", JInt 1)] ]};
                  key_list := [JStr "0xabc"] |};
        backend_calls := [] |}).
Proof.
  eapply (proj2 (proj2 (proj2
            (getTransactionResult_found_or_not_found py_hash sample_InvalidParams_code
               _ _)))).
  - reflexivity.
  - reflexivity.
  - reflexivity.
  - vm_compute. reflexivity.
Defined.

(** Outside the three shapes: to an empty list the handler answers with
    [IndexError], raised by [response[0]] before any finalization. *)
Example empty_answer_raises_before_finalization :
  let run := icx_sendTransaction py_hash sample_validate sample_dumps sample_digest
               sample_ServerError_code
               [("from", JStr "hxA"); ("to", JStr "hxB")]
               1541203200000000 (JList []) (init_tbears module_state) in
  fst run = Raise IndexError /\
  length (backend_calls (snd run)) = 1%nat /\
  observed_heights (backend_calls (snd run)) = [1].
Proof. repeat split; vm_compute; reflexivity. Qed.

(** A transfer the backend accepts: one commit, the answer is the hash
    the backend returned, and the stored result is served afterwards as
    it was stored. *)
Example accepted_transfer_is_committed :
  let tx_result := JDict [("txHash", JStr "0xabc"); ("status", JInt 1)] in
  let run := icx_sendTransaction py_hash sample_validate sample_dumps sample_digest
               sample_ServerError_code
               [("from", JStr "hxA"); ("to", JStr "hxB"); ("value", JStr "0x10")]
               1541203200000000 (JList [tx_result]) (init_tbears module_state) in
  fst run = Return (JStr "0xabc") /\
  drop 1 (backend_calls (snd run)) = [write_precommit_state (JDict [])] /\
  fst (icx_getTransactionResult py_hash sample_InvalidParams_code
         [("txHash", JStr "0xabc")] (snd run)) = Return tx_result.
Proof. repeat split; vm_compute; reflexivity. Qed.

(** A transfer the backend reports as failed: one rollback, no commit. *)
Example failed_transfer_is_rolled_back :
  let run := icx_sendTransaction py_hash sample_validate sample_dumps sample_digest
               sample_ServerError_code
               [("from", JStr "hxA"); ("to", JStr "hxB"); ("value", JStr "0x10")]
               1541203200000000
               (JList [JDict [("txHash", JStr "0xabc"); ("status", JInt 0)]])
               (init_tbears module_state) in
  fst run = Return (JStr "0xabc") /\
  drop 1 (backend_calls (snd run)) = [remove_precommit_state (JDict [])].
Proof. repeat split; vm_compute; reflexivity. Qed.

(** An error answer of the backend, code 100: one rollback, and the error
    goes out with code -100 and the backend's message. *)
Example backend_error_is_rolled_back :
  let run := icx_sendTransaction py_hash sample_validate sample_dumps sample_digest
               sample_ServerError_code
               [("from", JStr "hxA"); ("to", JStr "hxB"); ("value", JStr "0x10")]
               1541203200000000
               (JDict [("code", JInt 100); ("message", JStr "insufficient balance")])
               (init_tbears module_state) in
  fst run = Raise (GenericJsonRpcServerError (JInt (-100))
                     (JStr "insufficient balance") 400) /\
  drop 1 (backend_calls (snd run)) = [remove_precommit_state (JDict [])].
Proof. repeat split; vm_compute; reflexivity. Qed.

(** * The further properties on concrete inputs *)

Lemma put_then_get_witness :
  get py_hash (JStr "0xabc")
    (snd (put py_hash (JStr "0xabc") (JInt 1) TxResultMapper_default))
  = Return (JInt 1) /\
  getitem_mapper py_hash (JStr "0xabc")
    (snd (put py_hash (JStr "0xabc") (JInt 1) TxResultMapper_default))
  = Return (JInt 1).
Proof.
  apply (put_then_get py_hash (JStr "0xabc") (JInt 1) TxResultMapper_default).
  reflexivity.
Defined.


Lemma put_returns_or_KeyError_witness :
  fst (put py_hash (JStr "d") JNull
         (put_each py_hash
            [(JStr "a", JNull); (JStr "a", JNull); (JStr "b", JNull); (JStr "c", JNull)]
            (TxResultMapper_init 1))) = Return tt \/
  fst (put py_hash (JStr "d") JNull
         (put_each py_hash
            [(JStr "a", JNull); (JStr "a", JNull); (JStr "b", JNull); (JStr "c", JNull)]
            (TxResultMapper_init 1))) = Raise KeyError.
Proof.
  apply (put_returns_or_KeyError py_hash 1
           [(JStr "a", JNull); (JStr "a", JNull); (JStr "b", JNull); (JStr "c", JNull)]
           (JStr "d") JNull).
  - lia.
  - repeat constructor; simpl; eauto.
  - simpl. eauto.
Defined.

Lemma repeated_key_grows_log_witness :
  exists m,
    put_all py_hash (replicate 3 (JStr "0xabc", JInt 1)) (TxResultMapper_init 1000)
    = (Return tt, m) /\
    len m = 1 /\
    length (key_list m) = 3%nat.
Proof.
  apply (repeated_key_grows_log py_hash 1000 (JStr "0xabc") (JInt 1) 2).
  - lia.
  - simpl. eauto.
Defined.

(** Capacity 1 after [put] of ['a'], ['a'], ['b'], ['c']: [put('d')]
    raises [KeyError] and the mapping still holds ['b'] and ['c'] only. *)
Lemma raising_put_stores_nothing_witness :
  mapper (snd (put py_hash (JStr "d") JNull
                 (snd (put_all py_hash
                         [(JStr "a", JNull); (JStr "a", JNull); (JStr "b", JNull);
                          (JStr "c", JNull)] (TxResultMapper_init 1)))))
  = mapper (snd (put_all py_hash
                   [(JStr "a", JNull); (JStr "a", JNull); (JStr "b", JNull);
                    (JStr "c", JNull)] (TxResultMapper_init 1))) /\
  (key_list (snd (put py_hash (JStr "d") JNull
                    (snd (put_all py_hash
                            [(JStr "a", JNull); (JStr "a", JNull); (JStr "b", JNull);
                             (JStr "c", JNull)] (TxResultMapper_init 1)))))
   = key_list (snd (put_all py_hash
                      [(JStr "a", JNull); (JStr "a", JNull); (JStr "b", JNull);
                       (JStr "c", JNull)] (TxResultMapper_init 1))) \/
   key_list (snd (put py_hash (JStr "d") JNull
                    (snd (put_all py_hash
                            [(JStr "a", JNull); (JStr "a", JNull); (JStr "b", JNull);
                             (JStr "c", JNull)] (TxResultMapper_init 1)))))
   = tail (key_list (snd (put_all py_hash
                            [(JStr "a", JNull); (JStr "a", JNull); (JStr "b", JNull);
                             (JStr "c", JNull)] (TxResultMapper_init 1))))).
Proof.
  apply (raising_put_stores_nothing py_hash (JStr "d") JNull _ _ KeyError).
  - simpl. eauto.
  - reflexivity.
Defined.

Lemma returned_hash_is_cached_witness :
  exists tx_result rest,
    JList [JDict [("txHash", JStr "0xabc"); ("status", JInt 0)]]
    = JList (tx_result :: rest) /\
    getitem tx_result "txHash" = Return (JStr "0xabc") /\
    (exists status, getitem tx_result "status" = Return status) /\
    forall query_params,
      dict_get query_params "txHash" = Some (JStr "0xabc") ->
      icx_getTransactionResult py_hash sample_InvalidParams_code query_params
        (snd (icx_sendTransaction py_hash sample_validate sample_dumps sample_digest
                sample_ServerError_code
                [("from", JStr "hxA"); ("to", JStr "hxB")] 1541203200000000
                (JList [JDict [("txHash", JStr "0xabc"); ("status", JInt 0)]])
                (init_tbears module_state)))
      = (Return tx_result,
         snd (icx_sendTransaction py_hash sample_validate sample_dumps sample_digest
                sample_ServerError_code
                [("from", JStr "hxA"); ("to", JStr "hxB")] 1541203200000000
                (JList [JDict [("txHash", JStr "0xabc"); ("status", JInt 0)]])
                (init_tbears module_state))).
Proof.
  apply (returned_hash_is_cached py_hash sample_validate sample_dumps sample_digest
           sample_ServerError_code sample_InvalidParams_code
           [("from", JStr "hxA"); ("to", JStr "hxB")] 1541203200000000
           (JList [JDict [("txHash", JStr "0xabc"); ("status", JInt 0)]])
           (init_tbears module_state)).
  reflexivity.
Defined.

Lemma backend_error_is_translated_witness :
  exists request,
    icx_sendTransaction py_hash sample_validate sample_dumps sample_digest
      sample_ServerError_code
      [("from", JStr "hxA"); ("to", JStr "hxB")] 1541203200000000
      (JDict [("code", JInt 100); ("message", JStr "insufficient balance")])
      (init_tbears module_state)
    = (Raise (GenericJsonRpcServerError (JInt (- 100)) (JStr "insufficient balance")
                HTTP_BAD_REQUEST),
       {| block_height := block_height (init_tbears (K:=pykey) module_state) + 1;
          tx_result_mapper := tx_result_mapper (init_tbears (K:=pykey) module_state);
          backend_calls := backend_calls (init_tbears (K:=pykey) module_state)
                           ++ [icx_send_transaction request;
                               remove_precommit_state (JDict [])] |}).
Proof.
  apply (backend_error_is_translated py_hash sample_validate sample_dumps sample_digest
           sample_ServerError_code
           [("from", JStr "hxA"); ("to", JStr "hxB")] 1541203200000000
           [("code", JInt 100); ("message", JStr "insufficient balance")]
           100 (JStr "insufficient balance") (init_tbears module_state)).
  - reflexivity.
  - lia.
  - reflexivity.
  - reflexivity.
Defined.

(** A clock set before 1970, then a good one: the backend is handed
    height 2 and never height 1. *)
Lemma clock_overflow_uses_up_a_height_witness :
  icx_sendTransaction py_hash sample_validate sample_dumps sample_digest
    sample_ServerError_code
    [("from", JStr "hxA"); ("to", JStr "hxB")] (-1) (JList [])
    (init_tbears module_state)
  = (Raise OverflowError,
     {| block_height := block_height (init_tbears (K:=pykey) module_state) + 1;
        tx_result_mapper := tx_result_mapper (init_tbears (K:=pykey) module_state);
        backend_calls := backend_calls (init_tbears (K:=pykey) module_state) |}) /\
  observed_heights
    (backend_calls
       (submit_all py_hash sample_validate sample_dumps sample_digest
          sample_ServerError_code
          [{| sub_params := [("from", JStr "hxA"); ("to", JStr "hxB")];
              sub_timestamp := -1;
              sub_response := JList [] |};
           {| sub_params := [("from", JStr "hxA"); ("to", JStr "hxB")];
              sub_timestamp := 1541203200000000;
              sub_response := JList [JDict [("txHash", JStr "0x1");
                                            ("status", JInt 1)]] |}]
          (init_tbears module_state)))
  = observed_heights (backend_calls (init_tbears (K:=pykey) module_state))
    ++ [block_height (init_tbears (K:=pykey) module_state) + 2].
Proof.
  apply (clock_overflow_uses_up_a_height py_hash sample_validate sample_dumps
           sample_digest sample_ServerError_code
           {| sub_params := [("from", JStr "hxA"); ("to", JStr "hxB")];
              sub_timestamp := -1;
              sub_response := JList [] |}
           {| sub_params := [("from", JStr "hxA"); ("to", JStr "hxB")];
              sub_timestamp := 1541203200000000;
              sub_response := JList [JDict [("txHash", JStr "0x1");
                                            ("status", JInt 1)]] |}).
  - reflexivity.
  - left. simpl. lia.
  - split; [reflexivity | simpl; lia].
Defined.

Lemma integer_free_value_unchanged_witness :
  integers_to_hex (JDict [("a", JStr "0x1"); ("b", JList [JNull; JFloat 0])])
  = JDict [("a", JStr "0x1"); ("b", JList [JNull; JFloat 0])].
Proof.
  apply (integer_free_value_unchanged
           (JDict [("a", JStr "0x1"); ("b", JList [JNull; JFloat 0])])).
  reflexivity.
Defined.

(** A client that sends its own [method] parameter has it replaced. *)
Lemma method_is_added_to_params_witness :
  exists d' p',
    add_method_to_params
      (JDict [("jsonrpc", JStr "2.0"); ("method", JStr "icx_getBalance");
              ("params", JDict [("method", JStr "spoof"); ("address", JStr "hxA")]);
              ("id", JInt 1)])
    = Return (JDict d') /\
    dict_get d' "params" = Some (JDict p') /\
    dict_get p' "method" = Some (JStr "icx_getBalance") /\
    (forall k, k <> "method" ->
               dict_get p' k
               = dict_get [("method", JStr "spoof"); ("address", JStr "hxA")] k) /\
    (forall k, k <> "params" ->
               dict_get d' k
               = dict_get [("jsonrpc", JStr "2.0"); ("method", JStr "icx_getBalance");
                           ("params", JDict [("method", JStr "spoof");
                                             ("address", JStr "hxA")]);
                           ("id", JInt 1)] k).
Proof.
  apply (method_is_added_to_params
           [("jsonrpc", JStr "2.0"); ("method", JStr "icx_getBalance");
            ("params", JDict [("method", JStr "spoof"); ("address", JStr "hxA")]);
            ("id", JInt 1)]
           (JStr "icx_getBalance")
           [("method", JStr "spoof"); ("address", JStr "hxA")]).
  - reflexivity.
  - left. reflexivity.
Defined.


(** A file that sets the port and one logging option: both are kept, the
    other logging options are not filled in, the other keys are. *)
Lemma file_values_win_over_defaults_witness :
  exists d',
    load_config ascii_decode json_read
      (Some ("{" +:+ quoted "port" +:+ ": 9100, " +:+ quoted "log" +:+ ": {"
             +:+ quoted "level" +:+ ": " +:+ quoted "info" +:+ "}}"))
    = Loaded (JDict d') /\
    (forall k, dict_get d' k
               = match dict_get [("port", JInt 9100);
                                 ("log", JDict [("level", JStr "info")])] k with
                 | Some v => Some v
                 | None => dict_get default_conf_items k
                 end) /\
    Forall (fun k => is_Some (dict_get d' k))
      ["from"; "port"; "scoreRoot"; "dbRoot"; "accounts"; "log"] /\
    fill_defaults default_conf_items (JDict d') = Return (JDict d').
Proof.
  apply (file_values_win_over_defaults ascii_decode json_read
           ("{" +:+ quoted "port" +:+ ": 9100, " +:+ quoted "log" +:+ ": {"
            +:+ quoted "level" +:+ ": " +:+ quoted "info" +:+ "}}")
           ("{" +:+ quoted "port" +:+ ": 9100, " +:+ quoted "log" +:+ ": {"
            +:+ quoted "level" +:+ ": " +:+ quoted "info" +:+ "}}")
           [("port", JInt 9100); ("log", JDict [("level", JStr "info")])]).
  - vm_compute. reflexivity.
  - vm_compute. reflexivity.
Defined.

Example partial_log_is_not_completed :
  load_config ascii_decode json_read
    (Some ("{" +:+ quoted "log" +:+ ": {" +:+ quoted "level" +:+ ": "
           +:+ quoted "info" +:+ "}}"))
  = Loaded (JDict [("log", JDict [("level", JStr "info")]);
                   ("from", JStr "hxaaaaaaaaaaaaaaaaaaaaaaaaaaaaaaaaaaaaaaaa");
                   ("port", JInt 9000);
                   ("scoreRoot", JStr "./.score");
                   ("dbRoot", JStr "./.db");
                   ("accounts",
                    JList [JDict [("name", JStr "genesis");
                                  ("address",
                                   JStr "hx0000000000000000000000000000000000000000");
                                  ("balance", JStr "0x2961fff8ca4a62327800000")];
                           JDict [("name", JStr "treasury");
                                  ("address",
                                   JStr "hx1000000000000000000000000000000000000000");
                                  ("balance", JStr "0x0")]])]).
Proof. vm_compute. reflexivity. Qed.

Example run_alone_is_refused :
  main (fun s => s) ["run"] = Help_COMMAND_IS_WRONG /\
  main (fun s => s) ["run"; "project"; "more"] = Exit_run /\
  main (fun s => s) ["init"; "project"] = Help_COMMAND_IS_WRONG.
Proof. repeat split; reflexivity. Qed.

Lemma execution_request_envelope_witness :
  exists bytes params' later,
    to_bytes_8_big 258 = Return bytes /\
    backend_calls
      (snd (icx_sendTransaction py_hash sample_validate sample_dumps sample_digest
              sample_ServerError_code
              [("from", JStr "hxA"); ("to", JStr "hxB"); ("txHash", JStr "mine")]
              258 (JList []) (init_tbears module_state)))
    = backend_calls (init_tbears (K:=pykey) module_state)
      ++ icx_send_transaction
           (JDict [("transactions",
                    JList [JDict [("method", JStr "icx_sendTransaction");
                                  ("params", JDict params')]]);
                   ("block",
                    JDict [("blockHeight",
                            JInt (block_height (init_tbears (K:=pykey) module_state) + 1));
                           ("blockHash", JStr (create_hash sample_digest bytes));
                           ("timestamp", JInt 258)])])
         :: later /\
    dict_get params' "txHash"
    = Some (JStr (create_hash sample_digest
                    (sample_dumps
                       (JDict [("from", JStr "hxA"); ("to", JStr "hxB");
                               ("txHash", JStr "mine")])))) /\
    (forall k, k <> "txHash" ->
               dict_get params' k
               = dict_get [("from", JStr "hxA"); ("to", JStr "hxB");
                           ("txHash", JStr "mine")] k).
Proof.
  apply (execution_request_envelope py_hash sample_validate sample_dumps sample_digest
           sample_ServerError_code
           [("from", JStr "hxA"); ("to", JStr "hxB"); ("txHash", JStr "mine")]
           258 (JList []) (init_tbears module_state)).
  - reflexivity.
  - lia.
Defined.

(** A cache of capacity 1 whose log starts with an evicted key: the
    transfer is committed, the handler raises [KeyError], and the result
    is not stored. *)
Lemma finalization_precedes_caching_witness :
  exists request,
    icx_sendTransaction py_hash sample_validate sample_dumps sample_digest
      sample_ServerError_code
      [("from", JStr "hxA"); ("to", JStr "hxB")] 1541203200000000
      (JList [JDict [("txHash", JStr "d"); ("status", JInt 1)]])
      {| block_height := 4;
         tx_result_mapper :=
           Some (snd (put_all py_hash
                        [(JStr "a", JNull); (JStr "a", JNull); (JStr "b", JNull);
                         (JStr "c", JNull)] (TxResultMapper_init 1)));
         backend_calls := [] |}
    = (Raise KeyError,
       {| block_height := 4 + 1;
          tx_result_mapper :=
            Some (snd (put py_hash (JStr "d")
                         (JDict [("txHash", JStr "d"); ("status", JInt 1)])
                         (snd (put_all py_hash
                                 [(JStr "a", JNull); (JStr "a", JNull);
                                  (JStr "b", JNull); (JStr "c", JNull)]
                                 (TxResultMapper_init 1)))));
          backend_calls :=
            [] ++ [icx_send_transaction request;
                   if py_eq_int (JInt 1) 1
                   then write_precommit_state (JDict [])
                   else remove_precommit_state (JDict [])] |}).
Proof.
  apply (finalization_precedes_caching py_hash sample_validate sample_dumps
           sample_digest sample_ServerError_code
           [("from", JStr "hxA"); ("to", JStr "hxB")] 1541203200000000
           (JDict [("txHash", JStr "d"); ("status", JInt 1)]) (JInt 1) (JStr "d") []
           {| block_height := 4;
              tx_result_mapper :=
                Some (snd (put_all py_hash
                             [(JStr "a", JNull); (JStr "a", JNull); (JStr "b", JNull);
                              (JStr "c", JNull)] (TxResultMapper_init 1)));
              backend_calls := [] |}
           (snd (put_all py_hash
                   [(JStr "a", JNull); (JStr "a", JNull); (JStr "b", JNull);
                    (JStr "c", JNull)] (TxResultMapper_init 1)))
           (snd (put py_hash (JStr "d")
                   (JDict [("txHash", JStr "d"); ("status", JInt 1)])
                   (snd (put_all py_hash
                           [(JStr "a", JNull); (JStr "a", JNull);
                            (JStr "b", JNull); (JStr "c", JNull)]
                           (TxResultMapper_init 1)))))
           KeyError).
  - reflexivity.
  - lia.
  - reflexivity.
  - reflexivity.
  - reflexivity.
  - reflexivity.
Defined.
